(** * MacMuteOnLocation: the geofencing mute engine of [main.py]

    A shallow embedding of [LocationMenubarApp] and of
    [LocationDelegate.check_target_locations], followed by the properties the
    specification states about them.

    Conventions of the embedding.
    - The attributes of the application object are the fields of the record
      [App]; the two last fields stand for the world outside the object: the
      content of [target_locations.json] and the trace of the calls made to
      external collaborators (shell commands, notifications, alerts, geocoder
      requests, timers), oldest first.
    - A method is a function [App -> App]; what the source reads from a
      collaborator (a dialog answer, the output of a shell command, the
      result of a geocoding request) is an argument of the function.
    - Python floats are the binary64 numbers of [PrimFloat]. The functions of
      the [math] module and the float formatting of f-strings are taken as
      parameters ([PyLib]).
    - [print] calls are left out. Calls to collaborators are taken to return
      normally, apart from those whose failure the model takes as an input
      (reading the settings file, reading the system mute state, geocoding). *)

From Stdlib Require Import ZArith QArith Lia Ascii.
From Stdlib Require Import DecimalString.
From Stdlib Require Import Floats.PrimFloat Floats.SpecFloat Floats.FloatOps.
From stdpp Require Import gmap strings list.

Local Open Scope Z_scope.

(** ** Python strings *)

Module PyStr.

(** The ASCII characters [str.strip] removes: tab, line feed, vertical tab,
    form feed, carriage return, the separators 0x1c to 0x1f, and space. *)
Definition is_space (c : ascii) : bool :=
  let n := Ascii.nat_of_ascii c in
  ((9 <=? n)%nat && (n <=? 13)%nat) || ((28 <=? n)%nat && (n <=? 32)%nat).

Fixpoint lstrip (s : string) : string :=
  match s with
  | EmptyString => EmptyString
  | String c rest => if is_space c then lstrip rest else s
  end.

Definition rstrip (s : string) : string :=
  String.rev (lstrip (String.rev s)).

(** [s.strip()] *)
Definition strip (s : string) : string := rstrip (lstrip s).

Definition lower_ascii (c : ascii) : ascii :=
  let n := Ascii.nat_of_ascii c in
  if ((65 <=? n)%nat && (n <=? 90)%nat) then Ascii.ascii_of_nat (n + 32) else c.

(** [s.lower()], on ASCII letters. *)
Fixpoint lower (s : string) : string :=
  match s with
  | EmptyString => EmptyString
  | String c rest => String (lower_ascii c) (lower rest)
  end.

Definition digit_value (c : ascii) : option Z :=
  let n := Ascii.nat_of_ascii c in
  if ((48 <=? n)%nat && (n <=? 57)%nat) then Some (Z.of_nat (n - 48)) else None.

(** The digits of an [int(...)] literal: decimal digits, where a single
    underscore may stand between two digits. [after_digit] tells whether the
    previous character was a digit. *)
Fixpoint parse_digits (acc : Z) (after_digit : bool) (s : string) : option Z :=
  match s with
  | EmptyString => if after_digit then Some acc else None
  | String c rest =>
      match digit_value c with
      | Some d => parse_digits (acc * 10 + d) true rest
      | None =>
          if Ascii.eqb c "_"%char
          then (if after_digit then parse_digits acc false rest else None)
          else None
      end
  end.

(** [int(s)] for a string: [None] where Python raises [ValueError]. *)
Definition int (s : string) : option Z :=
  match strip s with
  | String "+"%char rest => parse_digits 0 false rest
  | String "-"%char rest => option_map Z.opp (parse_digits 0 false rest)
  | digits => parse_digits 0 false digits
  end.

(** [str(n)] and the [{n}] of an f-string, for an [int]. *)
Definition str (n : Z) : string := NilZero.string_of_int (Z.to_int n).

(** Truth value of a string: non-empty. *)
Definition truthy (s : string) : bool :=
  match s with EmptyString => false | _ => true end.

End PyStr.

(** ** Python floats *)

Module PyFloat.

(** The signed numerator of a finite binary64 number [m * 2^e]. *)
Definition signed (s : bool) (m : positive) : Z :=
  if s then Z.neg m else Z.pos m.

(** [x <= r] for a float [x] and an [int] [r]. Python compares the two
    exactly (no rounding of [r] to a float); a NaN compares false. *)
Definition SF_le_int (x : spec_float) (r : Z) : bool :=
  match x with
  | S754_zero _ => 0 <=? r
  | S754_infinity s => s
  | S754_nan => false
  | S754_finite s m e =>
      if 0 <=? e then signed s m * 2 ^ e <=? r
      else signed s m <=? r * 2 ^ (- e)
  end.

Definition le_int (x : float) (r : Z) : bool := SF_le_int (Prim2SF x) r.

(** The rational a finite float stands for. *)
Definition SF_value (x : spec_float) : option Q :=
  match x with
  | S754_zero _ => Some 0%Q
  | S754_infinity _ => None
  | S754_nan => None
  | S754_finite s m e =>
      Some (if 0 <=? e then inject_Z (signed s m * 2 ^ e)
            else Qmake (signed s m) (Z.to_pos (2 ^ (- e))))
  end.

Definition value (x : float) : option Q := SF_value (Prim2SF x).

End PyFloat.

(** ** Data model *)

(** An entry of [target_locations]: [{'address': ..., 'radius': ...}]. *)
Record TargetZone := { address : string; radius : Z }.

(** A [(latitude, longitude)] pair, in degrees. *)
Definition Coord : Type := float * float.

(** The ["settings"] object of the settings file; a key may be absent. *)
Record SettingsObj := {
  saved_check_interval : option Z;
  saved_is_active : option bool
}.

(** What [json.load] returns for [target_locations.json]: a list (the old
    format), a dict whose keys ["locations"] and ["settings"] may be absent
    (the new format), or another JSON value. The values are typed as
    [save_target_locations] writes them. *)
Inductive FileData :=
| JsonList (locations : list TargetZone)
| JsonDict (locations : option (list TargetZone)) (settings : option SettingsObj)
| JsonOther.

(** The settings file: absent, present but failing to open or to parse, or
    holding a JSON value. *)
Inductive FileState :=
| FileMissing
| FileUnreadable
| FileHolds (data : FileData).

Inductive Timer := LocationTimer | MuteSyncTimer.

(** Calls made to the collaborators of the application. *)
Inductive Event :=
| OsSystem (command : string)
| Notification (title subtitle message : string)
| Alert (title message : string)
| WindowRun (message title default_text : string)
| ActivateIgnoringOtherApps
| GeocodeAddressString (addr : string)
| TimerStart (t : Timer) (seconds : Z)
| TimerCancel (t : Timer)
| RequestWhenInUseAuthorization.

(** The attributes of [LocationMenubarApp]. A menu item is its title
    ([status_item], [location_item], [mute_item], [interval_item]), its
    visibility ([enable_location_item_hidden]) or the titles of its submenu
    ([target_locations_menu], where [None] is a separator, and
    [interval_item_menu]). [location_timer] and [mute_sync_timer] tell whether
    the attribute of that name exists ([hasattr]). *)
Record App := MkApp {
  is_active : bool;
  is_muted : bool;
  inside_target_zone : bool;
  current_location : option Coord;
  target_locations : list TargetZone;
  target_location_coords : gmap string Coord;
  location_check_interval : Z;
  status_item : string;
  location_item : string;
  enable_location_item_hidden : bool;
  target_locations_menu : list (option string);
  mute_item : string;
  interval_item : string;
  interval_item_menu : list string;
  location_timer : bool;
  mute_sync_timer : bool;
  settings_file : FileState;
  events : list Event
}.

(** *** Attribute assignment *)

Definition set_is_active (v : bool) (s : App) : App :=
  MkApp v (is_muted s) (inside_target_zone s) (current_location s)
    (target_locations s) (target_location_coords s)
    (location_check_interval s) (status_item s) (location_item s)
    (enable_location_item_hidden s) (target_locations_menu s) (mute_item s)
    (interval_item s) (interval_item_menu s) (location_timer s)
    (mute_sync_timer s) (settings_file s) (events s).

Definition set_is_muted (v : bool) (s : App) : App :=
  MkApp (is_active s) v (inside_target_zone s) (current_location s)
    (target_locations s) (target_location_coords s)
    (location_check_interval s) (status_item s) (location_item s)
    (enable_location_item_hidden s) (target_locations_menu s) (mute_item s)
    (interval_item s) (interval_item_menu s) (location_timer s)
    (mute_sync_timer s) (settings_file s) (events s).

Definition set_inside_target_zone (v : bool) (s : App) : App :=
  MkApp (is_active s) (is_muted s) v (current_location s) (target_locations s)
    (target_location_coords s) (location_check_interval s) (status_item s)
    (location_item s) (enable_location_item_hidden s)
    (target_locations_menu s) (mute_item s) (interval_item s)
    (interval_item_menu s) (location_timer s) (mute_sync_timer s)
    (settings_file s) (events s).

Definition set_current_location (v : option Coord) (s : App) : App :=
  MkApp (is_active s) (is_muted s) (inside_target_zone s) v
    (target_locations s) (target_location_coords s)
    (location_check_interval s) (status_item s) (location_item s)
    (enable_location_item_hidden s) (target_locations_menu s) (mute_item s)
    (interval_item s) (interval_item_menu s) (location_timer s)
    (mute_sync_timer s) (settings_file s) (events s).

Definition set_target_locations (v : list TargetZone) (s : App) : App :=
  MkApp (is_active s) (is_muted s) (inside_target_zone s) (current_location s)
    v (target_location_coords s) (location_check_interval s) (status_item s)
    (location_item s) (enable_location_item_hidden s)
    (target_locations_menu s) (mute_item s) (interval_item s)
    (interval_item_menu s) (location_timer s) (mute_sync_timer s)
    (settings_file s) (events s).

Definition set_target_location_coords (v : gmap string Coord) (s : App) : App :=
  MkApp (is_active s) (is_muted s) (inside_target_zone s) (current_location s)
    (target_locations s) v (location_check_interval s) (status_item s)
    (location_item s) (enable_location_item_hidden s)
    (target_locations_menu s) (mute_item s) (interval_item s)
    (interval_item_menu s) (location_timer s) (mute_sync_timer s)
    (settings_file s) (events s).

Definition set_location_check_interval (v : Z) (s : App) : App :=
  MkApp (is_active s) (is_muted s) (inside_target_zone s) (current_location s)
    (target_locations s) (target_location_coords s) v (status_item s)
    (location_item s) (enable_location_item_hidden s)
    (target_locations_menu s) (mute_item s) (interval_item s)
    (interval_item_menu s) (location_timer s) (mute_sync_timer s)
    (settings_file s) (events s).

Definition set_status_item (v : string) (s : App) : App :=
  MkApp (is_active s) (is_muted s) (inside_target_zone s) (current_location s)
    (target_locations s) (target_location_coords s)
    (location_check_interval s) v (location_item s)
    (enable_location_item_hidden s) (target_locations_menu s) (mute_item s)
    (interval_item s) (interval_item_menu s) (location_timer s)
    (mute_sync_timer s) (settings_file s) (events s).

Definition set_location_item (v : string) (s : App) : App :=
  MkApp (is_active s) (is_muted s) (inside_target_zone s) (current_location s)
    (target_locations s) (target_location_coords s)
    (location_check_interval s) (status_item s) v
    (enable_location_item_hidden s) (target_locations_menu s) (mute_item s)
    (interval_item s) (interval_item_menu s) (location_timer s)
    (mute_sync_timer s) (settings_file s) (events s).

Definition set_enable_location_item_hidden (v : bool) (s : App) : App :=
  MkApp (is_active s) (is_muted s) (inside_target_zone s) (current_location s)
    (target_locations s) (target_location_coords s)
    (location_check_interval s) (status_item s) (location_item s) v
    (target_locations_menu s) (mute_item s) (interval_item s)
    (interval_item_menu s) (location_timer s) (mute_sync_timer s)
    (settings_file s) (events s).

Definition set_target_locations_menu (v : list (option string)) (s : App) : App :=
  MkApp (is_active s) (is_muted s) (inside_target_zone s) (current_location s)
    (target_locations s) (target_location_coords s)
    (location_check_interval s) (status_item s) (location_item s)
    (enable_location_item_hidden s) v (mute_item s) (interval_item s)
    (interval_item_menu s) (location_timer s) (mute_sync_timer s)
    (settings_file s) (events s).

Definition set_mute_item (v : string) (s : App) : App :=
  MkApp (is_active s) (is_muted s) (inside_target_zone s) (current_location s)
    (target_locations s) (target_location_coords s)
    (location_check_interval s) (status_item s) (location_item s)
    (enable_location_item_hidden s) (target_locations_menu s) v
    (interval_item s) (interval_item_menu s) (location_timer s)
    (mute_sync_timer s) (settings_file s) (events s).

Definition set_interval_item (v : string) (s : App) : App :=
  MkApp (is_active s) (is_muted s) (inside_target_zone s) (current_location s)
    (target_locations s) (target_location_coords s)
    (location_check_interval s) (status_item s) (location_item s)
    (enable_location_item_hidden s) (target_locations_menu s) (mute_item s) v
    (interval_item_menu s) (location_timer s) (mute_sync_timer s)
    (settings_file s) (events s).

Definition set_interval_item_menu (v : list string) (s : App) : App :=
  MkApp (is_active s) (is_muted s) (inside_target_zone s) (current_location s)
    (target_locations s) (target_location_coords s)
    (location_check_interval s) (status_item s) (location_item s)
    (enable_location_item_hidden s) (target_locations_menu s) (mute_item s)
    (interval_item s) v (location_timer s) (mute_sync_timer s)
    (settings_file s) (events s).

Definition set_location_timer (v : bool) (s : App) : App :=
  MkApp (is_active s) (is_muted s) (inside_target_zone s) (current_location s)
    (target_locations s) (target_location_coords s)
    (location_check_interval s) (status_item s) (location_item s)
    (enable_location_item_hidden s) (target_locations_menu s) (mute_item s)
    (interval_item s) (interval_item_menu s) v (mute_sync_timer s)
    (settings_file s) (events s).

Definition set_mute_sync_timer (v : bool) (s : App) : App :=
  MkApp (is_active s) (is_muted s) (inside_target_zone s) (current_location s)
    (target_locations s) (target_location_coords s)
    (location_check_interval s) (status_item s) (location_item s)
    (enable_location_item_hidden s) (target_locations_menu s) (mute_item s)
    (interval_item s) (interval_item_menu s) (location_timer s) v
    (settings_file s) (events s).

Definition set_settings_file (v : FileState) (s : App) : App :=
  MkApp (is_active s) (is_muted s) (inside_target_zone s) (current_location s)
    (target_locations s) (target_location_coords s)
    (location_check_interval s) (status_item s) (location_item s)
    (enable_location_item_hidden s) (target_locations_menu s) (mute_item s)
    (interval_item s) (interval_item_menu s) (location_timer s)
    (mute_sync_timer s) v (events s).

Definition set_events (v : list Event) (s : App) : App :=
  MkApp (is_active s) (is_muted s) (inside_target_zone s) (current_location s)
    (target_locations s) (target_location_coords s)
    (location_check_interval s) (status_item s) (location_item s)
    (enable_location_item_hidden s) (target_locations_menu s) (mute_item s)
    (interval_item s) (interval_item_menu s) (location_timer s)
    (mute_sync_timer s) (settings_file s) v.

(** ** Collaborators *)

Definition emit (e : Event) (s : App) : App := set_events (events s ++ [e]) s.

Definition MUTE_COMMAND : string := "osascript -e 'set volume with output muted'".
Definition UNMUTE_COMMAND : string := "osascript -e 'set volume without output muted'".

Definition os_system (command : string) : App -> App := emit (OsSystem command).
Definition notification (title subtitle message : string) : App -> App :=
  emit (Notification title subtitle message).
Definition alert (title message : string) : App -> App := emit (Alert title message).

(** The mute and unmute commands of a trace, in order: [true] for a mute
    command, [false] for an unmute command. *)
Definition mute_command_of (e : Event) : option bool :=
  match e with
  | OsSystem command =>
      if String.eqb command MUTE_COMMAND then Some true
      else if String.eqb command UNMUTE_COMMAND then Some false
      else None
  | _ => None
  end.

Definition mute_commands (trace : list Event) : list bool :=
  omap mute_command_of trace.

(** The addresses a trace asks the geocoder for, in order. *)
Definition geocode_request_of (e : Event) : option string :=
  match e with
  | GeocodeAddressString addr => Some addr
  | _ => None
  end.

Definition geocode_requests (trace : list Event) : list string :=
  omap geocode_request_of trace.

(** The alerts of a trace, in order. *)
Definition alert_of (e : Event) : option (string * string) :=
  match e with
  | Alert title message => Some (title, message)
  | _ => None
  end.

Definition alerts (trace : list Event) : list (string * string) :=
  omap alert_of trace.

(** The command [auto_mute b] and a manual toggle send for the target state [b]. *)
Definition command_for (b : bool) : string :=
  if b then MUTE_COMMAND else UNMUTE_COMMAND.

(** The answer of a [rumps.Window(...).run()] dialog. *)
Record Response := { clicked : bool; text : string }.

(** ** Methods of [LocationMenubarApp] *)

Definition MUTE_TITLE : string := "🔇 Mute Mac".
Definition UNMUTE_TITLE : string := "🔊 Unmute Mac".

Definition CHECK_INTERVALS : list (string * Z) :=
  [("1 Min", 60); ("2 Min", 120); ("5 Min", 300); ("10 Min", 600);
   ("15 Min", 900); ("30 Min", 1800); ("1 Hour", 3600)].

Definition update_status (active : option bool) (s : App) : App :=
  let s := match active with Some a => set_is_active a s | None => s end in
  if is_active s then set_status_item "🟢 Status: Active" s
  else set_status_item "🔴 Status: Inactive" s.

Definition stop_location_timer (s : App) : App :=
  if location_timer s then emit (TimerCancel LocationTimer) s else s.

Definition start_location_timer (s : App) : App :=
  let s := stop_location_timer s in
  if is_active s then
    let s := emit (TimerStart LocationTimer (location_check_interval s)) s in
    set_location_timer true s
  else s.

Definition stop_mute_sync_timer (s : App) : App :=
  if mute_sync_timer s then emit (TimerCancel MuteSyncTimer) s else s.

Definition start_mute_sync_timer (s : App) : App :=
  let s := stop_mute_sync_timer s in
  let s := emit (TimerStart MuteSyncTimer 10) s in
  set_mute_sync_timer true s.

(** [result.lower() == 'true'] for the stripped output of the query
    [osascript -e 'output muted of (get volume settings)']. *)
Definition system_muted_of (output : string) : bool :=
  String.eqb (PyStr.lower (PyStr.strip output)) "true".

(** [result] is what [os.popen(...).read()] returns, [None] when the call
    raises. *)
Definition mute_sync_callback (result : option string) (s : App) : App :=
  let s :=
    match result with
    | Some output =>
        let system_muted := system_muted_of output in
        if negb (Bool.eqb (is_muted s) system_muted) then
          let s := set_is_muted system_muted s in
          if is_muted s then set_mute_item UNMUTE_TITLE s
          else set_mute_item MUTE_TITLE s
        else s
    | None => s
    end in
  start_mute_sync_timer s.

Definition manual_mute_toggle (s : App) : App :=
  if is_muted s then os_system UNMUTE_COMMAND s
  else os_system MUTE_COMMAND s.

(** The request part of [geocode_target_location]: the completion handler is
    [geocode_callback] below, called when the geocoder answers. *)
Definition geocode_target_location (addr : string) (s : App) : App :=
  emit (GeocodeAddressString addr) s.

Definition auto_mute (should_mute : bool) (s : App) : App :=
  let s :=
    if should_mute then
      let s := os_system MUTE_COMMAND s in
      notification "MacMuteOnLocation" "Auto Muted" "Mac muted - entered target zone" s
    else
      let s := os_system UNMUTE_COMMAND s in
      notification "MacMuteOnLocation" "Auto Unmuted" "Mac unmuted - left target zone" s in
  if negb (Bool.eqb (is_muted s) should_mute) then
    let s := set_is_muted should_mute s in
    if is_muted s then set_mute_item UNMUTE_TITLE s
    else set_mute_item MUTE_TITLE s
  else s.

(** The geocoding loop that ends [load_target_locations]. *)
Fixpoint geocode_missing (locations : list TargetZone) (s : App) : App :=
  match locations with
  | [] => s
  | location :: rest =>
      let addr := address location in
      match target_location_coords s !! addr with
      | None => geocode_missing rest (geocode_target_location addr s)
      | Some _ => geocode_missing rest s
      end
  end.

Definition load_target_locations (s : App) : App :=
  match settings_file s with
  | FileMissing => s
  | FileUnreadable => set_target_locations [] s
  | FileHolds data =>
      let s :=
        match data with
        | JsonList locations => set_target_locations locations s
        | JsonDict locations settings =>
            let s := set_target_locations (default [] locations) s in
            let saved_interval := default 30 (settings ≫= saved_check_interval) in
            let s := set_location_check_interval saved_interval s in
            let saved_status := default false (settings ≫= saved_is_active) in
            let s := set_is_active saved_status s in
            let s := update_status None s in
            if is_active s then start_location_timer s else s
        | JsonOther => s
        end in
      geocode_missing (target_locations s) s
  end.

Definition save_target_locations (s : App) : App :=
  let data :=
    JsonDict (Some (target_locations s))
      (Some {| saved_check_interval := Some (location_check_interval s);
               saved_is_active := Some (is_active s) |}) in
  set_settings_file (FileHolds data) s.

Definition update_target_locations_menu (s : App) : App :=
  let items :=
    map (fun location =>
           Some (address location +:+ " (" +:+ PyStr.str (radius location) +:+ "m)"))
        (target_locations s) in
  let separator := match target_locations s with [] => [] | _ => [None] end in
  set_target_locations_menu (items ++ separator ++ [Some "+ Add Location"]) s.

Definition update_interval_menu (s : App) : App :=
  let current_interval_label :=
    fold_left (fun current '(label, secs) =>
                 if secs =? location_check_interval s then label else current)
              CHECK_INTERVALS "Unknown" in
  let items :=
    map (fun '(label, secs) =>
           if secs =? location_check_interval s then "✓ " +:+ label else label)
        CHECK_INTERVALS in
  let s := set_interval_item_menu items s in
  set_interval_item ("⏱️ Check Interval: " +:+ current_interval_label) s.

Definition add_location (address_response radius_response : Response) (s : App) : App :=
  let s := emit ActivateIgnoringOtherApps s in
  let s := emit (WindowRun "Enter the address for the target location"
                           "Add Target Location - Address" EmptyString) s in
  if negb (clicked address_response)
     || negb (PyStr.truthy (PyStr.strip (text address_response)))
  then s
  else
    let addr := PyStr.strip (text address_response) in
    let s := emit (WindowRun "Enter the radius in meters for the target location"
                             "Add Target Location - Radius" "100") s in
    if clicked radius_response then
      match PyStr.int (PyStr.strip (text radius_response)) with
      | Some r =>
          if r <=? 0 then
            alert "Invalid Input" "Radius must be a positive number" s
          else
            let s := set_target_locations
                       (target_locations s ++ [{| address := addr; radius := r |}]) s in
            let s := geocode_target_location addr s in
            let s := save_target_locations s in
            update_target_locations_menu s
      | None => alert "Invalid Input" "Radius must be a number" s
      end
    else s.

Definition newline : string := String "010"%char EmptyString.

(** [action_response] is what the Edit/Delete alert returns: 1 for Edit, 0
    for Delete. An [index] outside the list raises [IndexError] at the first
    subscript. *)
Definition edit_location (index : nat) (action_response : Z)
    (address_response radius_response : Response) (s : App) : App :=
  let s := emit ActivateIgnoringOtherApps s in
  match target_locations s !! index with
  | None => s
  | Some location =>
      let s := alert "Edit Target Location"
                 ("Current location: " +:+ address location +:+ " ("
                  +:+ PyStr.str (radius location) +:+ "m)" +:+ newline +:+ newline
                  +:+ "Choose an action:") s in
      let save_and_update s := update_target_locations_menu (save_target_locations s) in
      if action_response =? 1 then
        let s := emit (WindowRun "Enter the new address for the target location"
                                 "Edit Target Location - Address" (address location)) s in
        if negb (clicked address_response)
           || negb (PyStr.truthy (PyStr.strip (text address_response)))
        then s
        else
          let addr := PyStr.strip (text address_response) in
          let s := emit (WindowRun "Enter the new radius in meters for the target location"
                                   "Edit Target Location - Radius"
                                   (PyStr.str (radius location))) s in
          if clicked radius_response then
            match PyStr.int (PyStr.strip (text radius_response)) with
            | Some r =>
                if r <=? 0 then
                  alert "Invalid Input" "Radius must be a positive number" s
                else
                  let old_address := address location in
                  let s := set_target_locations
                             (<[index := {| address := addr; radius := r |}]>
                                (target_locations s)) s in
                  let s :=
                    if negb (String.eqb old_address addr) then
                      let s :=
                        match target_location_coords s !! old_address with
                        | Some _ => set_target_location_coords
                                      (delete old_address (target_location_coords s)) s
                        | None => s
                        end in
                      geocode_target_location addr s
                    else s in
                  save_and_update s
            | None => alert "Invalid Input" "Radius must be a number" s
            end
          else s
      else if action_response =? 0 then
        let address_to_delete := address location in
        let s :=
          match target_location_coords s !! address_to_delete with
          | Some _ => set_target_location_coords
                        (delete address_to_delete (target_location_coords s)) s
          | None => s
          end in
        let s := set_target_locations (delete index (target_locations s)) s in
        save_and_update s
      else s
  end.

Definition set_interval_action (label : string) (seconds : Z) (s : App) : App :=
  if 60 <=? seconds then
    let s := set_location_check_interval seconds s in
    let s := notification "MacMuteOnLocation" "Interval Updated"
               ("Location check interval set to " +:+ label) s in
    let s := update_interval_menu s in
    let s := save_target_locations s in
    if is_active s then start_location_timer s else s
  else
    alert "Invalid Input" "Interval must be at least 1 minute for optimal battery life." s.

Definition toggle_status (s : App) : App :=
  let s := set_is_active (negb (is_active s)) s in
  let s := update_status None s in
  let s :=
    if is_active s then
      let s := notification "MacMuteOnLocation" "Status Changed"
                 "Application is now ACTIVE - Location monitoring started" s in
      start_location_timer s
    else
      let s := notification "MacMuteOnLocation" "Status Changed"
                 "Application is now INACTIVE - Location monitoring stopped" s in
      stop_location_timer s in
  save_target_locations s.

(** What [CLLocationManager.authorizationStatus()] returns. *)
Inductive AuthorizationStatus :=
| NotDetermined
| AuthorizedAlways
| AuthorizedWhenInUse
| Denied
| Restricted.

(** [auth_status] is the authorization status the method reads. The
    creation of the location manager and of its delegate assigns no
    attribute the engine reads, and is left out. *)
Definition setup_location_manager (auth_status : AuthorizationStatus) (s : App) : App :=
  match auth_status with
  | NotDetermined => emit RequestWhenInUseAuthorization s
  | AuthorizedAlways | AuthorizedWhenInUse => set_enable_location_item_hidden true s
  | Denied | Restricted =>
      let s := set_enable_location_item_hidden false s in
      set_location_item "📍 Location: Access Denied" s
  end.

(** The attributes as [__init__] sets them before it reads the settings
    file; [file] is the settings file found on disk. The attributes no
    method reads ([launch_at_login], [script_dir], the icon) are left out. *)
Definition initial_attributes (file : FileState) : App :=
  {| is_active := false;
     is_muted := false;
     inside_target_zone := false;
     current_location := None;
     target_locations := [];
     target_location_coords := ∅;
     location_check_interval := 300;
     status_item := "🔴 Status: Inactive";
     location_item := "📍 Location: Unknown";
     enable_location_item_hidden := false;
     target_locations_menu := [];
     mute_item := MUTE_TITLE;
     interval_item := "⏱️ Check Interval";
     interval_item_menu := [];
     location_timer := false;
     mute_sync_timer := false;
     settings_file := file;
     events := [] |}.

(** [LocationMenubarApp.__init__] *)
Definition init (auth_status : AuthorizationStatus) (file : FileState) : App :=
  let s := initial_attributes file in
  let s := update_interval_menu s in
  let s := load_target_locations s in
  let s := save_target_locations s in
  let s := update_target_locations_menu s in
  let s := update_interval_menu s in
  let s := setup_location_manager auth_status s in
  let s := set_enable_location_item_hidden true s in
  start_mute_sync_timer s.

(** The engine after start-up with no settings file, once the periodic
    synchronisation has read a muted system. *)
Definition muted_after_sync : App :=
  mute_sync_callback (Some ("true" +:+ newline)) (init AuthorizedAlways FileMissing).

(** ** Zone evaluation *)

(** What the model takes from Python's float library: [math.sin], [math.cos],
    [math.asin], the power operator [**] on floats, and the [{x:.4f}] format
    of an f-string. [math.sqrt] is the correctly rounded square root of
    [PrimFloat], and [math.radians] multiplies by [pi / 180]; the
    [ValueError] that [math.sqrt] and [math.asin] raise outside their domain
    is not modelled. *)
Record PyLib := {
  math_sin : float -> float;
  math_cos : float -> float;
  math_asin : float -> float;
  float_pow : float -> float -> float;
  format_4f : float -> string
}.

(** The answer of the geocoder to one request: an error, or a list of
    placemarks, each with or without a location. *)
Inductive GeocodeResult :=
| GeocodeError
| GeocodePlacemarks (placemarks : list (option Coord)).

Definition math_pi : float := 0x1.921fb54442d18p+1%float.

Definition math_radians (x : float) : float := (x * (math_pi / 180))%float.

Section Engine.

Variable py : PyLib.

Definition calculate_distance (lat1 lon1 lat2 lon2 : float) : float :=
  let lat1 := math_radians lat1 in
  let lon1 := math_radians lon1 in
  let lat2 := math_radians lat2 in
  let lon2 := math_radians lon2 in
  let dlat := (lat2 - lat1)%float in
  let dlon := (lon2 - lon1)%float in
  let a := (float_pow py (math_sin py (dlat / 2)) 2
            + math_cos py lat1 * math_cos py lat2
              * float_pow py (math_sin py (dlon / 2)) 2)%float in
  let c := (2 * math_asin py (PrimFloat.sqrt a))%float in
  let r := 6371000%float in
  (c * r)%float.

(** The [for target in self.app.target_locations] loop of
    [check_target_locations]: the value of [currently_inside_any_target]
    when the loop ends, and the application after the geocoding requests the
    loop made. *)
Fixpoint inside_any_target (current_lat current_lon : float)
    (targets : list TargetZone) (s : App) : bool * App :=
  match targets with
  | [] => (false, s)
  | target :: rest =>
      match target_location_coords s !! address target with
      | Some (target_lat, target_lon) =>
          let distance := calculate_distance current_lat current_lon target_lat target_lon in
          if PyFloat.le_int distance (radius target) then (true, s)
          else inside_any_target current_lat current_lon rest s
      | None =>
          inside_any_target current_lat current_lon rest
            (geocode_target_location (address target) s)
      end
  end.

(** [LocationDelegate.check_target_locations], on the application the
    delegate holds. *)
Definition check_target_locations (current_lat current_lon : float) (s : App) : App :=
  if negb (is_active s) then s
  else
    match target_locations s with
    | [] => s
    | _ =>
        let '(currently_inside_any_target, s) :=
          inside_any_target current_lat current_lon (target_locations s) s in
        let s := set_inside_target_zone currently_inside_any_target s in
        if inside_target_zone s then
          if negb (is_muted s) then auto_mute true s else s
        else
          if is_muted s then auto_mute false s else s
    end.

(** [location] is the coordinate of the [CLLocation] received. *)
Definition location_updated (location : Coord) (s : App) : App :=
  let s := set_current_location (Some location) s in
  let '(lat, lon) := location in
  let s := set_location_item
             ("📍 Location: " +:+ format_4f py lat +:+ ", " +:+ format_4f py lon) s in
  check_target_locations lat lon s.

(** [LocationDelegate.locationManager_didUpdateLocations_]: the last
    location of a non-empty list is processed. *)
Definition locationManager_didUpdateLocations (locations : list Coord) (s : App) : App :=
  match last locations with
  | Some location => location_updated location s
  | None => s
  end.

(** The completion handler of [geocode_target_location addr]. *)
Definition geocode_callback (addr : string) (result : GeocodeResult) (s : App) : App :=
  match result with
  | GeocodeError => s
  | GeocodePlacemarks [] => s
  | GeocodePlacemarks (None :: _) => s
  | GeocodePlacemarks (Some (lat, lon) :: _) =>
      let s := set_target_location_coords
                 (<[addr := (lat, lon)]> (target_location_coords s)) s in
      match current_location s with
      | Some (current_lat, current_lon) =>
          check_target_locations current_lat current_lon s
      | None => s
      end
  end.

(** A run of position fixes, each processed by [location_updated]. *)
Definition process_locations (fixes : list Coord) (s : App) : App :=
  fold_left (fun s location => location_updated location s) fixes s.

(** *** Notions used to state the properties of the loop *)

(** Whether [target] has a resolved coordinate within [radius target] of the
    position: the test the loop makes on one zone. *)
Definition zone_contains (coords : gmap string Coord) (current_lat current_lon : float)
    (target : TargetZone) : bool :=
  match coords !! address target with
  | Some (target_lat, target_lon) =>
      PyFloat.le_int (calculate_distance current_lat current_lon target_lat target_lon)
        (radius target)
  | None => false
  end.

(** The addresses the loop asks the geocoder for: those of the zones without
    a coordinate that stand before the first zone containing the position. *)
Fixpoint requested (coords : gmap string Coord) (current_lat current_lon : float)
    (targets : list TargetZone) : list string :=
  match targets with
  | [] => []
  | target :: rest =>
      if zone_contains coords current_lat current_lon target then []
      else
        match coords !! address target with
        | None => address target :: requested coords current_lat current_lon rest
        | Some _ => requested coords current_lat current_lon rest
        end
  end.

End Engine.

(** ** A float library to run the model on

    Polynomial approximations of the trigonometric functions, good for the
    distances of the examples below; they stand in for the [math] module
    where a statement is run on concrete positions. *)

Module Approx.

Local Open Scope float_scope.

Definition sin (x : float) : float :=
  let x2 := x * x in
  x * (1 - x2 / 6 * (1 - x2 / 20 * (1 - x2 / 42))).

Definition cos (x : float) : float :=
  let x2 := x * x in
  1 - x2 / 2 * (1 - x2 / 12 * (1 - x2 / 30)).

Definition asin (x : float) : float :=
  let x2 := x * x in
  x * (1 + x2 / 6 * (1 + x2 * 9 / 20 * (1 + x2 * 25 / 42))).

(** [x ** 2] as a product; other exponents do not occur. *)
Definition pow (x y : float) : float := if PrimFloat.eqb y 2 then x * x else nan.

(** Digits of [n] padded with zeros on the left to [width] characters. *)
Definition zero_padded (width : nat) (n : Z) : string :=
  let digits := PyStr.str n in
  String.concat EmptyString (replicate (width - String.length digits)%nat "0") +:+ digits.

(** [{x:.4f}] for a finite float: the value rounded half to even at the
    fourth decimal. *)
Definition fmt_4f (x : float) : string :=
  match Prim2SF x with
  | S754_nan => "nan"
  | S754_infinity s => if s then "-inf" else "inf"
  | S754_zero s => (if s then "-0.0000" else "0.0000")
  | S754_finite s m e =>
      let num := (Z.pos m * 10000 * (if 0 <=? e then 2 ^ e else 1))%Z in
      let den := (if 0 <=? e then 1 else 2 ^ (- e))%Z in
      let q := (num / den)%Z in
      let r := (num mod den)%Z in
      let n := (if (den <? 2 * r) || ((den =? 2 * r) && Z.odd q) then q + 1 else q)%Z in
      (if s then "-" else EmptyString)
      +:+ PyStr.str (n / 10000) +:+ "." +:+ zero_padded 4 (n mod 10000)
  end.

Definition lib : PyLib :=
  {| math_sin := sin; math_cos := cos; math_asin := asin;
     float_pow := pow; format_4f := fmt_4f |}.

End Approx.

(** ** Sample runs

    States reached by running the methods above, used to run the statements
    below on concrete inputs. *)

Definition gym : TargetZone := {| address := "Gym"; radius := 3000 |}.
Definition gym_coord : Coord := (52.5%float, 13.4296875%float).

(** A position about 1.6 km from [gym_coord], and one far from it. *)
Definition near_gym : Coord := (52.5%float, 13.40625%float).
Definition far_away : Coord := (48.125%float, 11.5%float).

Definition gym_resolved : GeocodeResult := GeocodePlacemarks [Some gym_coord].

(** Started from a new-format file with monitoring on and the zone [gym],
    once the geocoder has answered. *)
Definition monitoring : App :=
  geocode_callback Approx.lib "Gym" gym_resolved
    (init AuthorizedAlways
       (FileHolds (JsonDict (Some [gym])
          (Some {| saved_check_interval := Some 60; saved_is_active := Some true |})))).

(** Started from an old-format file holding the zone [gym]: monitoring is
    off. *)
Definition not_monitoring : App :=
  geocode_callback Approx.lib "Gym" gym_resolved
    (init AuthorizedAlways (FileHolds (JsonList [gym]))).

(** Monitoring on, no zone configured, and the system muted by hand. *)
Definition muted_without_zone : App :=
  mute_sync_callback (Some "true")
    (init AuthorizedAlways
       (FileHolds (JsonDict (Some [])
          (Some {| saved_check_interval := Some 60; saved_is_active := Some true |})))).

(** ** Notions used to state the properties of the dialogs and of loading *)

(** The addresses [load_target_locations] asks the geocoder for: those of
    the loaded zones that have no coordinate, in list order. *)
Fixpoint unresolved (coords : gmap string Coord) (locations : list TargetZone)
    : list string :=
  match locations with
  | [] => []
  | location :: rest =>
      match coords !! address location with
      | None => address location :: unresolved coords rest
      | Some _ => unresolved coords rest
      end
  end.

(** The inputs of the add-location dialogs that the specification calls
    invalid: an address that is empty once stripped, a radius that is not
    the text of an integer, a radius that is not positive. *)
Inductive InvalidInput := EmptyAddress | NonNumericRadius | NonPositiveRadius.

Definition invalid_input (address_response radius_response : Response)
    : option InvalidInput :=
  match PyStr.strip (text address_response) with
  | EmptyString => Some EmptyAddress
  | _ =>
      match PyStr.int (PyStr.strip (text radius_response)) with
      | None => Some NonNumericRadius
      | Some r => if r <=? 0 then Some NonPositiveRadius else None
      end
  end.

(** The alert a rejected input is answered with, if any. *)
Definition rejection_alert (why : InvalidInput) : list (string * string) :=
  match why with
  | EmptyAddress => []
  | NonNumericRadius => [("Invalid Input", "Radius must be a number")]
  | NonPositiveRadius => [("Invalid Input", "Radius must be a positive number")]
  end.

Definition ok (answer : string) : Response := {| clicked := true; text := answer |}.

(** A zone is added and deleted again before the geocoder has answered:
    the state in which the late answer for ["Office"] arrives. *)
Definition office_deleted : App :=
  let s := init AuthorizedAlways FileMissing in
  let s := add_location (ok "Office") (ok "100") s in
  edit_location 0 0 (ok EmptyString) (ok EmptyString) s.

Definition office_coord : Coord := (40.75%float, (-73.984375)%float).

(** ** Location provider callbacks

    The calls these methods make to the location manager (and the one-shot
    timer and the quit request) are returned beside the application, oldest
    first. The location manager is taken to exist: [setup_location_manager]
    has returned normally. *)

Inductive Accuracy := HundredMeters | BestForNavigation.

Inductive ManagerCall :=
| RequestLocation
| StartUpdatingLocation
| StopUpdatingLocation
| SetDesiredAccuracy (accuracy : Accuracy)
| SetDelegateNone
| ResetTimerStart (seconds : Z)
| QuitApplication.

(** [status in [kCLAuthorizationStatusAuthorizedAlways,
    kCLAuthorizationStatusAuthorizedWhenInUse]] *)
Definition authorized (status : AuthorizationStatus) : bool :=
  match status with
  | AuthorizedAlways | AuthorizedWhenInUse => true
  | _ => false
  end.

(** The integer Core Location gives each status, as an f-string prints it. *)
Definition status_code (status : AuthorizationStatus) : Z :=
  match status with
  | NotDetermined => 0
  | Restricted => 1
  | Denied => 2
  | AuthorizedAlways => 3
  | AuthorizedWhenInUse => 4
  end.

Definition update_location_authorization_ui (status : AuthorizationStatus) (s : App) : App :=
  if authorized status then set_enable_location_item_hidden true s
  else
    let s := set_enable_location_item_hidden false s in
    match status with
    | Denied => set_location_item "Location: Access Denied" s
    | _ => s
    end.

Definition stop_location_updates : list ManagerCall := [StopUpdatingLocation].

Definition stop_location_updates_and_reset_accuracy : list ManagerCall :=
  [StopUpdatingLocation; SetDesiredAccuracy HundredMeters].

(** [auth_status] is the authorization status the callback reads. *)
Definition location_timer_callback (auth_status : AuthorizationStatus) (s : App)
    : App * list ManagerCall :=
  let '(s, calls) :=
    if is_active s then
      if authorized auth_status then
        (set_location_item "📍 Location: Updating..." s, [RequestLocation])
      else
        let s := set_location_item "📍 Location: Access Denied" s in
        (update_location_authorization_ui auth_status s, [])
    else (s, []) in
  if is_active s then (start_location_timer s, calls) else (s, calls).

Definition refresh_location (auth_status : AuthorizationStatus) (s : App)
    : App * list ManagerCall :=
  let s := set_location_item "📍 Location: Refreshing..." s in
  if authorized auth_status then
    (s, [SetDesiredAccuracy BestForNavigation; StartUpdatingLocation; ResetTimerStart 10])
  else
    let s := set_enable_location_item_hidden false s in
    let s := update_location_authorization_ui auth_status s in
    let s := set_location_item "📍 Location: Access Denied" s in
    (alert "Location Access Required"
       ("Please enable location services to refresh location. Authorization status: "
        +:+ PyStr.str (status_code auth_status)) s,
     []).

(** [LocationDelegate.locationManager_didFailWithError_] *)
Definition locationManager_didFailWithError (s : App) : App * list ManagerCall :=
  (set_location_item "📍 Location: Error" s, [StopUpdatingLocation]).

(** [LocationDelegate.locationManager_didChangeAuthorizationStatus_] *)
Definition locationManager_didChangeAuthorizationStatus (status : AuthorizationStatus)
    (s : App) : App :=
  update_location_authorization_ui status s.

Definition quit_app (s : App) : App * list ManagerCall :=
  let s := set_is_active false s in
  let s := stop_location_timer s in
  let s := stop_mute_sync_timer s in
  (s, [StopUpdatingLocation; SetDelegateNone; QuitApplication]).

(** ** Single instance check *)

(** [s.split(sep)] for a one-character separator. *)
Fixpoint split_on (sep : ascii) (s : string) : list string :=
  match s with
  | EmptyString => [EmptyString]
  | String c rest =>
      if Ascii.eqb c sep then EmptyString :: split_on sep rest
      else
        match split_on sep rest with
        | first :: others => String c first :: others
        | [] => [String c EmptyString]
        end
  end.

(** The list comprehension [[int(pid.strip()) for pid in lines if
    pid.strip()]]: [None] when an [int] raises [ValueError]. *)
Fixpoint parse_pids (lines : list string) : option (list Z) :=
  match lines with
  | [] => Some []
  | pid :: rest =>
      if PyStr.truthy (PyStr.strip pid) then
        match PyStr.int (PyStr.strip pid) with
        | Some n => option_map (cons n) (parse_pids rest)
        | None => None
        end
      else parse_pids rest
  end.

(** [result] is what [pgrep -f <script>] gives, its return code and its
    output, [None] when running it raises. *)
Definition check_single_instance (current_pid : Z) (result : option (Z * string)) : bool :=
  match result with
  | None => true
  | Some (returncode, stdout) =>
      if returncode =? 0 then
        match parse_pids (split_on "010"%char (PyStr.strip stdout)) with
        | Some pids =>
            let other_pids := filter (fun pid => pid <> current_pid) pids in
            match other_pids with
            | [] => true
            | _ => false
            end
        | None => true
        end
      else true
  end.

(** ** The callbacks as one step

    What reaches the application after start-up: a click on a menu item with
    the answers given to its dialogs, a timer firing, an answer of the
    geocoder, a callback of the location manager. *)

Inductive Stimulus :=
| ClickStatus
| ClickMute
| ClickAddLocation (address_response radius_response : Response)
| ClickLocation (index : nat) (action_response : Z)
    (address_response radius_response : Response)
| ClickInterval (label : string) (seconds : Z)
| ClickRefresh (auth_status : AuthorizationStatus)
| MuteSyncTimerFired (result : option string)
| LocationTimerFired (auth_status : AuthorizationStatus)
| GeocoderAnswered (addr : string) (result : GeocodeResult)
| DidUpdateLocations (locations : list Coord)
| DidFailWithError
| DidChangeAuthorizationStatus (status : AuthorizationStatus).

Section Loop.

Variable py : PyLib.

Definition handle (stimulus : Stimulus) (s : App) : App :=
  match stimulus with
  | ClickStatus => toggle_status s
  | ClickMute => manual_mute_toggle s
  | ClickAddLocation address_response radius_response =>
      add_location address_response radius_response s
  | ClickLocation index action_response address_response radius_response =>
      edit_location index action_response address_response radius_response s
  | ClickInterval label seconds => set_interval_action label seconds s
  | ClickRefresh auth_status => fst (refresh_location auth_status s)
  | MuteSyncTimerFired result => mute_sync_callback result s
  | LocationTimerFired auth_status => fst (location_timer_callback auth_status s)
  | GeocoderAnswered addr result => geocode_callback py addr result s
  | DidUpdateLocations locations => locationManager_didUpdateLocations py locations s
  | DidFailWithError => fst (locationManager_didFailWithError s)
  | DidChangeAuthorizationStatus status =>
      locationManager_didChangeAuthorizationStatus status s
  end.

Definition run (stimuli : list Stimulus) (s : App) : App :=
  fold_left (fun s stimulus => handle stimulus s) stimuli s.

End Loop.

(** ** Notions used to state the invariants *)

(** What [save_target_locations] writes for the application [s]. *)
Definition file_of (s : App) : FileState :=
  FileHolds
    (JsonDict (Some (target_locations s))
       (Some {| saved_check_interval := Some (location_check_interval s);
                saved_is_active := Some (is_active s) |})).

(** The settings file holds the zones, the interval and the monitoring flag
    of the application. *)
Definition file_in_sync (s : App) : Prop := settings_file s = file_of s.

(** The menu shows the state: the labels of the mute and status items, the
    zone submenu and the interval submenu are those the state gives. *)
Definition display_in_sync (s : App) : Prop :=
  mute_item s = (if is_muted s then UNMUTE_TITLE else MUTE_TITLE)
  /\ status_item s = (if is_active s then "🟢 Status: Active" else "🔴 Status: Inactive")
  /\ target_locations_menu s = target_locations_menu (update_target_locations_menu s)
  /\ interval_item s = interval_item (update_interval_menu s)
  /\ interval_item_menu s = interval_item_menu (update_interval_menu s).

(** A zone as the dialogs accept it: a non-empty address and a positive
    radius. *)
Definition valid_zone (zone : TargetZone) : Prop :=
  address zone <> EmptyString /\ 0 < radius zone.

(** The mute state of [s'] is that of [s]: the flags, the label of the mute
    item, and the mute and unmute commands sent so far. *)
Definition mute_state_kept (s s' : App) : Prop :=
  is_muted s' = is_muted s
  /\ inside_target_zone s' = inside_target_zone s
  /\ mute_item s' = mute_item s
  /\ mute_commands (events s') = mute_commands (events s).

(** Monitoring on with the zone [gym], a position fix near it received,
    and the geocoder still silent. *)
Definition waiting_for_geocoder : App :=
  location_updated Approx.lib near_gym
    (init AuthorizedAlways
       (FileHolds (JsonDict (Some [gym])
          (Some {| saved_check_interval := Some 60; saved_is_active := Some true |})))).

(** No character of [s] is one that [strip] removes. *)
Fixpoint no_blank (s : string) : bool :=
  match s with
  | EmptyString => true
  | String c rest => negb (PyStr.is_space c) && no_blank rest
  end.

(** * Properties *)

(** ** The helpers run on samples *)

Example strip_spaces : PyStr.strip "  12 Main St
 " = "12 Main St".
Proof. reflexivity. Qed.

Example int_examples :
  PyStr.int " 100 " = Some 100 /\ PyStr.int "-5" = Some (-5) /\
  PyStr.int "1_000" = Some 1000 /\ PyStr.int "abc" = None /\
  PyStr.int EmptyString = None /\ PyStr.int "1__0" = None /\
  PyStr.int "12.5" = None /\ PyStr.int "+" = None.
Proof. repeat split; reflexivity. Qed.

Example str_examples : PyStr.str 100 = "100" /\ PyStr.str (-5) = "-5" /\ PyStr.str 0 = "0".
Proof. repeat split; reflexivity. Qed.

Example lower_true : PyStr.lower (PyStr.strip "True
") = "true".
Proof. reflexivity. Qed.

(** [value] does not reduce its fraction: it is read up to [Qeq]. *)
Example value_examples :
  option_map (Qeq_bool (inject_Z 100)) (PyFloat.value 100%float) = Some true /\
  option_map (Qeq_bool (1 # 2)) (PyFloat.value 0.5%float) = Some true /\
  option_map (Qeq_bool (- (3 # 1))) (PyFloat.value (-3)%float) = Some true /\
  PyFloat.value nan = None /\ PyFloat.value infinity = None.
Proof. repeat split; vm_compute; reflexivity. Qed.

Example le_int_examples :
  PyFloat.le_int 100%float 100 = true /\
  PyFloat.le_int 100.5%float 100 = false /\
  PyFloat.le_int 99.5%float 100 = true /\
  PyFloat.le_int nan 100 = false.
Proof. repeat split; vm_compute; reflexivity. Qed.

Example fmt_4f_examples :
  Approx.fmt_4f 0x1.a428f9f44d445p+5%float = "52.5200" /\
  Approx.fmt_4f (-0x1.4f8b588e368f1p-15)%float = "-0.0000" /\
  Approx.fmt_4f 0x1.acf559b3d07c8p+3%float = "13.4049" /\
  Approx.fmt_4f 0.03125%float = "0.0312" /\
  Approx.fmt_4f 100%float = "100.0000".
Proof. repeat split; vm_compute; reflexivity. Qed.

(** One degree of longitude on the equator is about 111.195 km. *)
Example distance_one_degree :
  PyFloat.le_int (calculate_distance Approx.lib 0 0 0 1) 111196 = true /\
  PyFloat.le_int (calculate_distance Approx.lib 0 0 0 1) 111194 = false /\
  calculate_distance Approx.lib 0 0 0 0 = 0%float.
Proof. repeat split; vm_compute; reflexivity. Qed.



(** ** Traces *)

Lemma mute_commands_app (t1 t2 : list Event) :
  mute_commands (t1 ++ t2) = mute_commands t1 ++ mute_commands t2.
Proof. unfold mute_commands. apply omap_app. Qed.

Lemma alerts_app (t1 t2 : list Event) : alerts (t1 ++ t2) = alerts t1 ++ alerts t2.
Proof. unfold alerts. apply omap_app. Qed.

Lemma mute_commands_emit (e : Event) (s : App) :
  mute_commands (events (emit e s)) =
  mute_commands (events s) ++ from_option (fun b => [b]) [] (mute_command_of e).
Proof.
  unfold emit. simpl. rewrite mute_commands_app. f_equal.
Qed.

Lemma mute_command_of_mute : mute_command_of (OsSystem MUTE_COMMAND) = Some true.
Proof. reflexivity. Qed.

Lemma mute_command_of_unmute : mute_command_of (OsSystem UNMUTE_COMMAND) = Some false.
Proof. reflexivity. Qed.

Lemma mute_command_of_command_for (b : bool) :
  mute_command_of (OsSystem (command_for b)) = Some b.
Proof. destruct b; reflexivity. Qed.

(** ** Manual toggle *)

(** C1 (the code departs from the claim): [manual_mute_toggle] sends the
    command opposite to [is_muted] to the audio controller and assigns no
    attribute: [is_muted] and the label of the toggle are as before, and
    only the trace grows, by that one command. In particular a manual unmute
    made while [is_muted] is true returns with [is_muted] still true. *)
Theorem manual_mute_toggle_keeps_is_muted (s : App) :
  manual_mute_toggle s
  = set_events (events s ++ [OsSystem (command_for (negb (is_muted s)))]) s
  /\ is_muted (manual_mute_toggle s) = is_muted s
  /\ mute_item (manual_mute_toggle s) = mute_item s
  /\ mute_commands (events (manual_mute_toggle s))
     = mute_commands (events s) ++ [negb (is_muted s)].
Proof.
  unfold manual_mute_toggle, os_system.
  destruct (is_muted s) eqn:Hm; simpl;
    (split; [reflexivity | split; [exact Hm | split; [reflexivity |]]]);
    rewrite mute_commands_app; reflexivity.
Qed.

(** Two manual toggles in a row from a muted engine: both send the unmute
    command, and [is_muted] is true throughout. *)
Example manual_unmute_twice :
  is_muted muted_after_sync = true /\
  is_muted (manual_mute_toggle muted_after_sync) = true /\
  mute_item (manual_mute_toggle muted_after_sync) = UNMUTE_TITLE /\
  mute_commands (events (manual_mute_toggle (manual_mute_toggle muted_after_sync)))
  = [false; false].
Proof. repeat split; vm_compute; reflexivity. Qed.

(** ** Periodic reconciliation *)

(** C4: one run of [mute_sync_callback] sets [is_muted] to the mute state
    read from the system (and keeps it when the read fails), sends no mute
    or unmute command, and changes no attribute other than [is_muted], the
    label of the toggle and its own timer: [inside_target_zone], the zone
    list, the coordinate map, [is_active], the position, the interval, the
    other menu items and the settings file are as before. The label changes
    only when [is_muted] does. *)
Theorem mute_sync_callback_frame (result : option string) (s : App) :
  let s' := mute_sync_callback result s in
  is_muted s' = from_option system_muted_of (is_muted s) result
  /\ mute_commands (events s') = mute_commands (events s)
  /\ mute_item s'
     = (if Bool.eqb (is_muted s') (is_muted s) then mute_item s
        else if is_muted s' then UNMUTE_TITLE else MUTE_TITLE)
  /\ inside_target_zone s' = inside_target_zone s
  /\ target_locations s' = target_locations s
  /\ target_location_coords s' = target_location_coords s
  /\ s' = set_events (events s')
            (set_mute_sync_timer true
               (set_mute_item (mute_item s') (set_is_muted (is_muted s') s))).
Proof.
  unfold mute_sync_callback, start_mute_sync_timer, stop_mute_sync_timer.
  destruct result as [output|]; simpl.
  - destruct (is_muted s) eqn:Hm, (system_muted_of output) eqn:Hsys,
      (mute_sync_timer s) eqn:Ht; simpl; rewrite ?Hm, ?Ht; simpl;
      repeat split; rewrite ?mute_commands_app, ?app_nil_r; try reflexivity;
      destruct s; simpl in *; subst; reflexivity.
  - destruct (is_muted s) eqn:Hm, (mute_sync_timer s) eqn:Ht; simpl;
      rewrite ?Hm, ?Ht; simpl;
      repeat split; rewrite ?mute_commands_app, ?app_nil_r; try reflexivity;
      destruct s; simpl in *; subst; reflexivity.
Qed.

(** ** The zone loop *)

Section EngineFacts.

Variable py : PyLib.

Lemma inside_any_target_spec (lat lon : float) (targets : list TargetZone) (s : App) :
  inside_any_target py lat lon targets s
  = (existsb (zone_contains py (target_location_coords s) lat lon) targets,
     set_events
       (events s
        ++ map GeocodeAddressString
             (requested py (target_location_coords s) lat lon targets))
       s).
Proof.
  revert s. induction targets as [|target rest IH]; intros s; simpl.
  - rewrite app_nil_r. destruct s; reflexivity.
  - unfold zone_contains at 1 3.
    destruct (target_location_coords s !! address target) as [[tlat tlon]|] eqn:Hc.
    + destruct (PyFloat.le_int _ _); simpl.
      * rewrite app_nil_r. destruct s; reflexivity.
      * apply IH.
    + rewrite IH. simpl. f_equal. rewrite <- app_assoc. reflexivity.
Qed.

Lemma mute_commands_geocoding (addrs : list string) :
  mute_commands (map GeocodeAddressString addrs) = [].
Proof. induction addrs; simpl; auto. Qed.

(** With monitoring on and a zone configured, a cycle computes the
    membership and calls [auto_mute] exactly when it differs from
    [is_muted]. *)
Lemma check_target_locations_active (lat lon : float) (s : App) :
  is_active s = true ->
  target_locations s <> [] ->
  check_target_locations py lat lon s
  = let r := inside_any_target py lat lon (target_locations s) s in
    let s0 := set_inside_target_zone (fst r) (snd r) in
    if Bool.eqb (is_muted s) (fst r) then s0 else auto_mute (fst r) s0.
Proof.
  intros Hact Hne. unfold check_target_locations. rewrite Hact. simpl.
  destruct (target_locations s) as [|t ts] eqn:Hts; [congruence|].
  rewrite <- Hts. rewrite inside_any_target_spec. simpl.
  destruct (existsb _ _), (is_muted s); reflexivity.
Qed.

Lemma check_target_locations_inactive (lat lon : float) (s : App) :
  is_active s = false -> check_target_locations py lat lon s = s.
Proof. intros H. unfold check_target_locations. rewrite H. reflexivity. Qed.

Lemma check_target_locations_no_zone (lat lon : float) (s : App) :
  target_locations s = [] -> check_target_locations py lat lon s = s.
Proof.
  intros H. unfold check_target_locations. rewrite H. destruct (is_active s); reflexivity.
Qed.

(** A cycle leaves the configuration alone: monitoring flag, zone list and
    coordinate map. *)
Lemma check_target_locations_config (lat lon : float) (s : App) :
  let s' := check_target_locations py lat lon s in
  is_active s' = is_active s
  /\ target_locations s' = target_locations s
  /\ target_location_coords s' = target_location_coords s.
Proof.
  unfold check_target_locations.
  destruct (is_active s) eqn:Hact; simpl; [|auto].
  destruct (target_locations s) as [|t ts] eqn:Hts; [auto|].
  rewrite <- Hts. rewrite inside_any_target_spec.
  unfold auto_mute.
  destruct (existsb _ _), (is_muted s) eqn:Hm; simpl; rewrite ?Hm; simpl; auto.
Qed.

(** What a cycle with a fresh membership value [b] does to the mute state
    and to the trace. *)
Lemma check_target_locations_enforces (lat lon : float) (s : App) :
  is_active s = true ->
  target_locations s <> [] ->
  let b := existsb (zone_contains py (target_location_coords s) lat lon)
             (target_locations s) in
  let s' := check_target_locations py lat lon s in
  inside_target_zone s' = b
  /\ is_muted s' = b
  /\ mute_commands (events s')
     = mute_commands (events s) ++ (if Bool.eqb (is_muted s) b then [] else [b]).
Proof.
  intros Hact Hne. simpl.
  rewrite check_target_locations_active by assumption.
  rewrite inside_any_target_spec. simpl. unfold auto_mute.
  destruct (existsb _ _), (is_muted s) eqn:Hm; simpl; rewrite ?Hm; simpl;
    rewrite ?mute_commands_app, ?mute_commands_geocoding, ?app_nil_r;
    repeat split; reflexivity.
Qed.

(** C3: with monitoring on, a zone configured and the membership freshly
    computed as [b] while [is_muted] is the opposite, one cycle sends exactly
    one command, the one for [b] (mute for [true], unmute for [false]), and
    ends with [is_muted = b]; the next cycle at the same position sends no
    command and keeps [is_muted = b]. *)
Theorem self_correction (lat lon : float) (s : App) (b : bool) :
  is_active s = true ->
  target_locations s <> [] ->
  fst (inside_any_target py lat lon (target_locations s) s) = b ->
  is_muted s = negb b ->
  let s1 := check_target_locations py lat lon s in
  let s2 := check_target_locations py lat lon s1 in
  mute_commands (events s1) = mute_commands (events s) ++ [b]
  /\ is_muted s1 = b
  /\ inside_target_zone s1 = b
  /\ mute_commands (events s2) = mute_commands (events s1)
  /\ is_muted s2 = b
  /\ inside_target_zone s2 = b.
Proof.
  intros Hact Hne Hin Hm. simpl.
  rewrite inside_any_target_spec in Hin. simpl in Hin.
  destruct (check_target_locations_config lat lon s) as (Ha1 & Ht1 & Hc1).
  destruct (check_target_locations_enforces lat lon s Hact Hne) as (Hi & Hmu & Hev).
  rewrite Hin in Hi, Hmu, Hev. rewrite Hm in Hev.
  assert (Hact1 : is_active (check_target_locations py lat lon s) = true)
    by (rewrite Ha1; exact Hact).
  assert (Hne1 : target_locations (check_target_locations py lat lon s) <> [])
    by (rewrite Ht1; exact Hne).
  destruct (check_target_locations_enforces lat lon _ Hact1 Hne1) as (Hi2 & Hmu2 & Hev2).
  rewrite Hc1, Ht1, Hin in Hi2, Hmu2, Hev2. rewrite Hmu in Hev2.
  repeat split; try assumption.
  - rewrite Hev. destruct b; reflexivity.
  - rewrite Hev2. destruct b; simpl; apply app_nil_r.
Qed.

End EngineFacts.

(** ** Zone membership *)

(** For a finite distance, [distance <= radius] holds of the float and the
    [int] exactly when it holds of the numbers they stand for. *)
Lemma le_int_value (x : float) (r : Z) (q : Q) :
  PyFloat.value x = Some q ->
  PyFloat.le_int x r = true <-> (q <= inject_Z r)%Q.
Proof.
  unfold PyFloat.value, PyFloat.le_int.
  destruct (Prim2SF x) as [sg|sg| |sg m e]; simpl; try discriminate; intros [= <-].
  - rewrite Z.leb_le. change 0%Q with (inject_Z 0). rewrite <- Zle_Qle. reflexivity.
  - destruct (0 <=? e) eqn:He.
    + rewrite Z.leb_le. rewrite <- Zle_Qle. reflexivity.
    + rewrite Z.leb_le. apply Z.leb_gt in He.
      unfold Qle. simpl.
      rewrite Z2Pos.id by (apply Z.pow_pos_nonneg; lia).
      rewrite Z.mul_1_r. reflexivity.
Qed.

Section Membership.

Variable py : PyLib.

Lemma zone_contains_resolved (coords : gmap string Coord) (lat lon : float)
    (target : TargetZone) :
  zone_contains py coords lat lon target = true <->
  exists target_lat target_lon,
    coords !! address target = Some (target_lat, target_lon)
    /\ PyFloat.le_int (calculate_distance py lat lon target_lat target_lon)
         (radius target) = true.
Proof.
  unfold zone_contains.
  destruct (coords !! address target) as [[tlat tlon]|]; split.
  - intros H. exists tlat, tlon. auto.
  - intros (a & b & [= <- <-] & H). exact H.
  - discriminate.
  - intros (a & b & [=] & _).
Qed.

Lemma inside_any_target_short_circuit (lat lon : float)
    (before after : list TargetZone) (target : TargetZone) (s : App) :
  zone_contains py (target_location_coords s) lat lon target = true ->
  inside_any_target py lat lon (before ++ target :: after) s
  = inside_any_target py lat lon (before ++ [target]) s
  /\ fst (inside_any_target py lat lon (before ++ target :: after) s) = true.
Proof.
  intros Hin. rewrite !inside_any_target_spec. simpl.
  rewrite !existsb_app. simpl. rewrite Hin. simpl.
  rewrite !orb_true_r. split; [|reflexivity].
  f_equal. f_equal. f_equal. f_equal.
  induction before as [|z zs IH]; simpl.
  - rewrite Hin. reflexivity.
  - destruct (zone_contains py _ lat lon z); [reflexivity|].
    destruct (target_location_coords s !! address z); rewrite IH; reflexivity.
Qed.

(** C5: a zone with a resolved coordinate contains the position exactly
    when the computed distance to its centre is at most its radius: for a
    finite distance standing for the number [q], exactly when
    [q <= radius], so a distance of exactly [radius] is inside and a
    distance of [radius + 1] is outside. The loop answers true exactly when
    some zone of the list with a resolved coordinate contains the position,
    and it stops at the first such zone in list order: the zones after it
    are not examined, neither for membership nor for geocoding. *)
Theorem zone_membership (lat lon : float) (s : App) :
  (forall target target_lat target_lon q,
      target_location_coords s !! address target = Some (target_lat, target_lon) ->
      PyFloat.value (calculate_distance py lat lon target_lat target_lon) = Some q ->
      (fst (inside_any_target py lat lon [target] s) = true
       <-> (q <= inject_Z (radius target))%Q)
      /\ ((q == inject_Z (radius target))%Q ->
          fst (inside_any_target py lat lon [target] s) = true)
      /\ ((q == inject_Z (radius target + 1))%Q ->
          fst (inside_any_target py lat lon [target] s) = false))
  /\ (forall targets,
         fst (inside_any_target py lat lon targets s) = true
         <-> exists target target_lat target_lon,
               target ∈ targets
               /\ target_location_coords s !! address target
                  = Some (target_lat, target_lon)
               /\ PyFloat.le_int (calculate_distance py lat lon target_lat target_lon)
                    (radius target) = true)
  /\ (forall before target after,
         zone_contains py (target_location_coords s) lat lon target = true ->
         inside_any_target py lat lon (before ++ target :: after) s
         = inside_any_target py lat lon (before ++ [target]) s
         /\ fst (inside_any_target py lat lon (before ++ target :: after) s) = true).
Proof.
  split; [|split].
  - intros target tlat tlon q Hc Hq.
    assert (Hone : fst (inside_any_target py lat lon [target] s)
                   = PyFloat.le_int (calculate_distance py lat lon tlat tlon)
                       (radius target)).
    { rewrite inside_any_target_spec. simpl. unfold zone_contains. rewrite Hc.
      apply orb_false_r. }
    rewrite Hone. pose proof (le_int_value _ (radius target) q Hq) as Hle.
    split; [exact Hle|split].
    + intros Heq. apply Hle. rewrite Heq. apply Qle_refl.
    + intros Heq. apply not_true_is_false. intros Htrue.
      pose proof (le_int_value _ (radius target) q Hq) as Hle'.
      apply Hle' in Htrue. rewrite Heq in Htrue.
      rewrite <- Zle_Qle in Htrue. lia.
  - intros targets. rewrite inside_any_target_spec. simpl.
    rewrite existsb_exists. split.
    + intros (target & Hin & Hz). apply zone_contains_resolved in Hz.
      destruct Hz as (tlat & tlon & Hc & Hle).
      exists target, tlat, tlon. split; [|auto]. apply list_elem_of_In. exact Hin.
    + intros (target & tlat & tlon & Hin & Hc & Hle).
      exists target. split; [apply list_elem_of_In; exact Hin|].
      apply zone_contains_resolved. eauto.
  - intros before target after. apply inside_any_target_short_circuit.
Qed.

End Membership.

(** Berlin, with the zone list [Office; Gym; Home; Cafe]: [Office] and
    [Cafe] are not geocoded yet, [Gym] is about 1.6 km away with a radius of
    3 km, [Home] is far away. The
    loop asks for [Office], finds the position inside [Gym] and stops; with
    a radius of 1 km for [Gym] it goes on, and answers false. *)
Example zone_loop_sample :
  let coords : gmap string Coord :=
    <["Gym" := (52.5%float, 13.4296875%float)]>
      (<["Home" := (48.125%float, 11.5%float)]> ∅) in
  let s := set_target_location_coords coords (initial_attributes FileMissing) in
  let zones r :=
    [ {| address := "Office"; radius := 100 |};
      {| address := "Gym"; radius := r |};
      {| address := "Home"; radius := 500 |};
      {| address := "Cafe"; radius := 50 |} ] in
  let run r := inside_any_target Approx.lib 52.5%float 13.40625%float (zones r) s in
  fst (run 3000) = true
  /\ events (snd (run 3000)) = [GeocodeAddressString "Office"]
  /\ fst (run 1000) = false
  /\ events (snd (run 1000)) = [GeocodeAddressString "Office"; GeocodeAddressString "Cafe"].
Proof. repeat split; vm_compute; reflexivity. Qed.

(** ** Idle engine *)

Section Idle.

Variable py : PyLib.

(** A position fix on which the cycle does nothing only records the
    position and its display. *)
Lemma location_updated_skipped (location : Coord) (s : App) :
  (forall lat lon s0,
      is_active s0 = is_active s -> target_locations s0 = target_locations s ->
      check_target_locations py lat lon s0 = s0) ->
  location_updated py location s
  = set_location_item (location_item (location_updated py location s))
      (set_current_location (Some location) s).
Proof.
  intros Hskip. unfold location_updated. destruct location as [lat lon].
  rewrite Hskip by reflexivity. reflexivity.
Qed.

Lemma process_locations_skipped (fixes : list Coord) (s : App) :
  (forall lat lon s0,
      is_active s0 = is_active s -> target_locations s0 = target_locations s ->
      check_target_locations py lat lon s0 = s0) ->
  let s' := process_locations py fixes s in
  is_active s' = is_active s
  /\ target_locations s' = target_locations s
  /\ is_muted s' = is_muted s
  /\ inside_target_zone s' = inside_target_zone s
  /\ events s' = events s.
Proof.
  revert s. induction fixes as [|location fixes IH]; intros s Hskip; simpl.
  - auto.
  - rewrite (location_updated_skipped location s Hskip).
    specialize (IH (set_location_item (location_item (location_updated py location s))
                      (set_current_location (Some location) s))).
    simpl in IH. apply IH. intros lat lon s0 Ha Ht. apply Hskip; assumption.
Qed.

(** C6: while [is_active] is false, an evaluation cycle returns the engine
    as it found it, whatever the position, and so does the cycle a geocoding
    completion starts; over any run of position fixes no command is sent
    (the trace does not grow at all), and [is_muted], [inside_target_zone]
    and [is_active] keep their values. *)
Theorem inactive_engine_idle (fixes : list Coord) (s : App) :
  is_active s = false ->
  (forall lat lon, check_target_locations py lat lon s = s)
  /\ (forall addr result,
        let s' := geocode_callback py addr result s in
        is_muted s' = is_muted s
        /\ inside_target_zone s' = inside_target_zone s
        /\ events s' = events s)
  /\ let s' := process_locations py fixes s in
     is_active s' = false
     /\ is_muted s' = is_muted s
     /\ inside_target_zone s' = inside_target_zone s
     /\ events s' = events s
     /\ mute_commands (events s') = mute_commands (events s).
Proof.
  intros Hact. split; [|split].
  - intros lat lon. apply check_target_locations_inactive. exact Hact.
  - intros addr result. unfold geocode_callback.
    destruct result as [|[|[[lat lon]|] rest]]; simpl; auto.
    destruct (current_location s) as [[clat clon]|]; simpl; auto.
    rewrite check_target_locations_inactive by exact Hact. simpl. auto.
  - simpl.
    destruct (process_locations_skipped fixes s) as (Ha & _ & Hm & Hi & He).
    { intros lat lon s0 Ha _. apply check_target_locations_inactive. congruence. }
    rewrite Ha, Hm, Hi, He. auto.
Qed.

(** C9: with an empty zone list an evaluation cycle returns the engine as it
    found it, monitoring on or off: no membership is computed,
    [inside_target_zone] and [is_muted] keep their values and nothing is
    sent. Over any run of position fixes a muted engine stays muted and no
    unmute command is sent. *)
Theorem no_zone_no_transition (fixes : list Coord) (s : App) :
  target_locations s = [] ->
  (forall lat lon, check_target_locations py lat lon s = s)
  /\ let s' := process_locations py fixes s in
     is_muted s' = is_muted s
     /\ inside_target_zone s' = inside_target_zone s
     /\ events s' = events s
     /\ mute_commands (events s') = mute_commands (events s).
Proof.
  intros Hts. split.
  - intros lat lon. apply check_target_locations_no_zone. exact Hts.
  - simpl.
    destruct (process_locations_skipped fixes s) as (_ & _ & Hm & Hi & He).
    { intros lat lon s0 _ Ht. apply check_target_locations_no_zone. congruence. }
    rewrite Hm, Hi, He. auto.
Qed.

End Idle.

(** [self_correction] on [monitoring], at a position inside the zone. *)
Lemma self_correction_witness :
  (is_active monitoring = true
   /\ target_locations monitoring <> []
   /\ fst (inside_any_target Approx.lib (fst near_gym) (snd near_gym)
             (target_locations monitoring) monitoring) = true
   /\ is_muted monitoring = negb true)
  /\ let s1 := check_target_locations Approx.lib (fst near_gym) (snd near_gym) monitoring in
     let s2 := check_target_locations Approx.lib (fst near_gym) (snd near_gym) s1 in
     mute_commands (events s1) = mute_commands (events monitoring) ++ [true]
     /\ is_muted s1 = true
     /\ inside_target_zone s1 = true
     /\ mute_commands (events s2) = mute_commands (events s1)
     /\ is_muted s2 = true
     /\ inside_target_zone s2 = true.
Proof.
  assert (H1 : is_active monitoring = true) by (vm_compute; reflexivity).
  assert (H2 : target_locations monitoring <> []) by (vm_compute; discriminate).
  assert (H3 : fst (inside_any_target Approx.lib (fst near_gym) (snd near_gym)
                      (target_locations monitoring) monitoring) = true)
    by (vm_compute; reflexivity).
  assert (H4 : is_muted monitoring = negb true) by (vm_compute; reflexivity).
  split; [auto|].
  exact (self_correction Approx.lib (fst near_gym) (snd near_gym) monitoring true
           H1 H2 H3 H4).
Defined.

(** [inactive_engine_idle] on [not_monitoring], for two position fixes. *)
Lemma inactive_engine_idle_witness :
  is_active not_monitoring = false
  /\ is_muted (process_locations Approx.lib [near_gym; far_away] not_monitoring)
     = is_muted not_monitoring
  /\ events (process_locations Approx.lib [near_gym; far_away] not_monitoring)
     = events not_monitoring.
Proof.
  assert (H : is_active not_monitoring = false) by (vm_compute; reflexivity).
  split; [exact H|].
  destruct (inactive_engine_idle Approx.lib [near_gym; far_away] not_monitoring H)
    as (_ & _ & _ & Hm & _ & He & _).
  split; [exact Hm | exact He].
Defined.

(** [no_zone_no_transition] on [muted_without_zone]: the engine stays muted. *)
Lemma no_zone_no_transition_witness :
  target_locations muted_without_zone = []
  /\ is_active muted_without_zone = true
  /\ is_muted (process_locations Approx.lib [near_gym; far_away] muted_without_zone)
     = is_muted muted_without_zone
  /\ events (process_locations Approx.lib [near_gym; far_away] muted_without_zone)
     = events muted_without_zone.
Proof.
  assert (H : target_locations muted_without_zone = []) by (vm_compute; reflexivity).
  split; [exact H|]. split; [vm_compute; reflexivity|].
  destruct (no_zone_no_transition Approx.lib [near_gym; far_away] muted_without_zone H)
    as (_ & Hm & _ & He & _).
  split; [exact Hm | exact He].
Defined.

(** ** Settings file *)

Lemma geocode_missing_spec (locations : list TargetZone) (s : App) :
  geocode_missing locations s
  = set_events
      (events s
       ++ map GeocodeAddressString (unresolved (target_location_coords s) locations))
      s.
Proof.
  revert s. induction locations as [|location rest IH]; intros s; simpl.
  - rewrite app_nil_r. destruct s; reflexivity.
  - destruct (target_location_coords s !! address location) eqn:Hc.
    + apply IH.
    + rewrite IH. simpl. rewrite <- app_assoc. reflexivity.
Qed.

Lemma unresolved_empty (locations : list TargetZone) :
  unresolved ∅ locations = map address locations.
Proof.
  induction locations as [|location rest IH]; simpl; [reflexivity|].
  rewrite lookup_empty, IH. reflexivity.
Qed.

(** Loading an old-format file assigns the zone list and nothing else but
    the geocoding requests. *)
Lemma load_bare_list (locations : list TargetZone) (s : App) :
  settings_file s = FileHolds (JsonList locations) ->
  load_target_locations s
  = set_events
      (events s
       ++ map GeocodeAddressString (unresolved (target_location_coords s) locations))
      (set_target_locations locations s).
Proof.
  intros Hfile. unfold load_target_locations. rewrite Hfile.
  rewrite geocode_missing_spec. reflexivity.
Qed.

(** C7: a settings file whose top-level value is a bare array of zones is
    loaded: the zone list is the array, [is_active] stays false and the
    check interval stays the default of [__init__], 300 seconds; a geocoding
    request is made for each zone. The same holds of the application once
    [__init__] has returned, which has rewritten the file in the new
    format. *)
Theorem load_bare_array (locations : list TargetZone) (auth_status : AuthorizationStatus) :
  let file := FileHolds (JsonList locations) in
  let loaded := load_target_locations (update_interval_menu (initial_attributes file)) in
  let started := init auth_status file in
  (target_locations loaded = locations
   /\ is_active loaded = false
   /\ location_check_interval loaded = 300
   /\ events loaded = map GeocodeAddressString (map address locations))
  /\ (target_locations started = locations
      /\ is_active started = false
      /\ location_check_interval started = 300
      /\ settings_file started
         = FileHolds (JsonDict (Some locations)
             (Some {| saved_check_interval := Some 300;
                      saved_is_active := Some false |}))).
Proof.
  simpl. split.
  - rewrite load_bare_list with (locations := locations) by reflexivity.
    simpl. rewrite unresolved_empty. auto.
  - unfold init. rewrite load_bare_list with (locations := locations) by reflexivity.
    unfold start_mute_sync_timer, stop_mute_sync_timer.
    destruct auth_status; simpl; auto.
Qed.

(** The interval a new-format file leaves after loading: the saved value,
    or 30 when the key or the whole ["settings"] object is absent. *)
Lemma load_dict_interval (locations : option (list TargetZone))
    (settings : option SettingsObj) (s : App) :
  settings_file s = FileHolds (JsonDict locations settings) ->
  location_check_interval (load_target_locations s)
  = default 30 (settings ≫= saved_check_interval).
Proof.
  intros Hfile. unfold load_target_locations. rewrite Hfile.
  rewrite geocode_missing_spec. simpl.
  unfold update_status, start_location_timer, stop_location_timer. simpl.
  destruct (default false (settings ≫= saved_is_active)); simpl;
    [destruct (location_timer s); reflexivity | reflexivity].
Qed.

(** C10: loading a new-format file whose settings lack [check_interval]
    (or that has no ["settings"] object) sets the check interval to 30; a
    [check_interval] present in the file becomes the check interval as it
    is, below 60 or not; [set_interval_action] with fewer than 60 seconds
    answers with an alert and assigns nothing, and with 60 seconds or more
    it assigns the interval. *)
Theorem check_interval_on_load (s : App) :
  (forall locations active,
      location_check_interval
        (load_target_locations
           (set_settings_file
              (FileHolds (JsonDict locations
                 (Some {| saved_check_interval := None; saved_is_active := active |}))) s))
      = 30)
  /\ (forall locations,
         location_check_interval
           (load_target_locations
              (set_settings_file (FileHolds (JsonDict locations None)) s))
         = 30)
  /\ (forall locations active v,
         location_check_interval
           (load_target_locations
              (set_settings_file
                 (FileHolds (JsonDict locations
                    (Some {| saved_check_interval := Some v; saved_is_active := active |}))) s))
         = v)
  /\ (forall label seconds,
         seconds < 60 ->
         set_interval_action label seconds s
         = set_events
             (events s
              ++ [Alert "Invalid Input"
                    "Interval must be at least 1 minute for optimal battery life."]) s
         /\ location_check_interval (set_interval_action label seconds s)
            = location_check_interval s)
  /\ (forall label seconds,
         60 <= seconds ->
         location_check_interval (set_interval_action label seconds s) = seconds).
Proof.
  repeat split.
  - intros locations active. erewrite load_dict_interval by reflexivity. reflexivity.
  - intros locations. erewrite load_dict_interval by reflexivity. reflexivity.
  - intros locations active v. erewrite load_dict_interval by reflexivity. reflexivity.
  - unfold set_interval_action. apply Z.leb_gt in H. rewrite H. reflexivity.
  - unfold set_interval_action. apply Z.leb_gt in H. rewrite H. reflexivity.
  - intros label seconds Hge. unfold set_interval_action.
    apply Z.leb_le in Hge. rewrite Hge.
    unfold start_location_timer, stop_location_timer. cbn.
    destruct (is_active s) eqn:Hact; cbn; [|reflexivity].
    destruct (location_timer s); cbn; rewrite Hact; reflexivity.
Qed.

(** A legacy interval of 30 seconds survives start-up, and the menu then
    shows no label for it. *)
Example legacy_interval_kept :
  let file :=
    FileHolds (JsonDict (Some [gym])
      (Some {| saved_check_interval := Some 30; saved_is_active := Some false |})) in
  location_check_interval (init AuthorizedAlways file) = 30
  /\ interval_item (init AuthorizedAlways file) = "⏱️ Check Interval: Unknown"
  /\ location_check_interval
       (set_interval_action "45 s" 45 (init AuthorizedAlways FileMissing)) = 300.
Proof. repeat split; vm_compute; reflexivity. Qed.

(** ** Adding a zone *)

(** C8 (as the code has it): when both dialogs are confirmed and the input
    is invalid, [add_location] assigns nothing: the zone list, the
    coordinate map, the settings file and every other attribute are as
    before, and only the trace grows, by the dialogs shown. A radius that is
    not a number or not positive is answered with an alert; an empty address
    is dropped with no alert. *)
Theorem add_location_rejects (address_response radius_response : Response)
    (why : InvalidInput) (s : App) :
  clicked address_response = true ->
  clicked radius_response = true ->
  invalid_input address_response radius_response = Some why ->
  let s' := add_location address_response radius_response s in
  s' = set_events (events s') s
  /\ target_locations s' = target_locations s
  /\ target_location_coords s' = target_location_coords s
  /\ settings_file s' = settings_file s
  /\ alerts (events s') = alerts (events s) ++ rejection_alert why.
Proof.
  intros Ha Hr Hwhy. unfold invalid_input in Hwhy.
  unfold add_location. rewrite Ha, Hr. simpl.
  destruct (PyStr.strip (text address_response)) as [|c rest] eqn:Haddr; simpl.
  - injection Hwhy as <-. simpl.
    repeat split; rewrite ?alerts_app; cbn; rewrite ?app_nil_r; reflexivity.
  - destruct (PyStr.int (PyStr.strip (text radius_response))) as [r|] eqn:Hint.
    + destruct (r <=? 0) eqn:Hpos; [|discriminate].
      injection Hwhy as <-. simpl.
      repeat split; rewrite ?alerts_app; cbn; rewrite ?app_nil_r; reflexivity.
    + injection Hwhy as <-. simpl.
      repeat split; rewrite ?alerts_app; cbn; rewrite ?app_nil_r; reflexivity.
Qed.

(** C8 (as the claim has it) fails: an address of blanks is invalid input,
    and [add_location] returns without any alert. *)
Lemma add_location_empty_address_silent :
  invalid_input (ok "   ") (ok "100") = Some EmptyAddress
  /\ alerts (events (add_location (ok "   ") (ok "100")
                      (init AuthorizedAlways FileMissing)))
     = []
  /\ events (add_location (ok "   ") (ok "100") (init AuthorizedAlways FileMissing))
     = events (init AuthorizedAlways FileMissing)
       ++ [ActivateIgnoringOtherApps;
           WindowRun "Enter the address for the target location"
             "Add Target Location - Address" EmptyString].
Proof. repeat split; vm_compute; reflexivity. Qed.

(** [add_location_rejects] on a radius of zero. *)
Lemma add_location_rejects_witness :
  (clicked (ok "Gym") = true
   /\ clicked (ok "0") = true
   /\ invalid_input (ok "Gym") (ok "0") = Some NonPositiveRadius)
  /\ let s' := add_location (ok "Gym") (ok "0") monitoring in
     s' = set_events (events s') monitoring
     /\ target_locations s' = target_locations monitoring
     /\ target_location_coords s' = target_location_coords monitoring
     /\ settings_file s' = settings_file monitoring
     /\ alerts (events s')
        = alerts (events monitoring) ++ rejection_alert NonPositiveRadius.
Proof.
  split; [repeat split; reflexivity|].
  exact (add_location_rejects (ok "Gym") (ok "0") NonPositiveRadius monitoring
           eq_refl eq_refl eq_refl).
Defined.

(** A valid input is accepted: the zone is appended, saved and requested. *)
Example add_location_accepts :
  let s := add_location (ok " Gym ") (ok "250") (init AuthorizedAlways FileMissing) in
  target_locations s = [{| address := "Gym"; radius := 250 |}]
  /\ target_locations_menu s = [Some "Gym (250m)"; None; Some "+ Add Location"]
  /\ settings_file s
     = FileHolds (JsonDict (Some [{| address := "Gym"; radius := 250 |}])
         (Some {| saved_check_interval := Some 300; saved_is_active := Some false |}))
  /\ last (events s) = Some (GeocodeAddressString "Gym").
Proof. repeat split; vm_compute; reflexivity. Qed.

(** ** Geocoding completions *)

Section Geocoding.

Variable py : PyLib.

(** The coordinate map after a completion: the answer is stored when it has
    no error and its first placemark has a location, and only then. *)
Lemma geocode_callback_coords (addr : string) (result : GeocodeResult) (s : App) :
  target_location_coords (geocode_callback py addr result s)
  = match result with
    | GeocodePlacemarks (Some coord :: _) => <[addr := coord]> (target_location_coords s)
    | _ => target_location_coords s
    end.
Proof.
  unfold geocode_callback.
  destruct result as [|[|[[lat lon]|] rest]]; try reflexivity.
  destruct (current_location _) as [[clat clon]|]; [|reflexivity].
  destruct (check_target_locations_config py clat clon
              (set_target_location_coords
                 (<[addr := (lat, lon)]> (target_location_coords s)) s))
    as (_ & _ & Hc).
  exact Hc.
Qed.

Lemma zone_contains_insert_other (coords : gmap string Coord) (addr : string)
    (coord : Coord) (lat lon : float) (target : TargetZone) :
  address target <> addr ->
  zone_contains py (<[addr := coord]> coords) lat lon target
  = zone_contains py coords lat lon target.
Proof.
  intros Hne. unfold zone_contains. rewrite lookup_insert_ne by congruence. reflexivity.
Qed.

Lemma stale_entry_unused (coords : gmap string Coord) (addr : string) (coord : Coord)
    (lat lon : float) (targets : list TargetZone) :
  addr ∉ map address targets ->
  existsb (zone_contains py (<[addr := coord]> coords) lat lon) targets
  = existsb (zone_contains py coords lat lon) targets
  /\ requested py (<[addr := coord]> coords) lat lon targets
     = requested py coords lat lon targets.
Proof.
  induction targets as [|target rest IH]; intros Hnot; simpl; [auto|].
  simpl in Hnot. apply not_elem_of_cons in Hnot. destruct Hnot as [Hne Hrest].
  destruct (IH Hrest) as [IHe IHr].
  rewrite zone_contains_insert_other by congruence.
  rewrite lookup_insert_ne by congruence.
  rewrite IHe, IHr. auto.
Qed.

(** C2 (as the code has it): the completion handler does not look at the
    zone list. For an address that is no longer in the list, a successful
    completion still stores the coordinate under that address, and a failed
    one stores nothing; the stored entry is not used by zone evaluation: a
    cycle run with it does what the cycle does without it. *)
Theorem geocode_callback_ignores_zone_list (addr : string) (result : GeocodeResult)
    (s : App) :
  addr ∉ map address (target_locations s) ->
  target_location_coords (geocode_callback py addr result s)
  = match result with
    | GeocodePlacemarks (Some coord :: _) => <[addr := coord]> (target_location_coords s)
    | _ => target_location_coords s
    end
  /\ forall coord lat lon,
       check_target_locations py lat lon
         (set_target_location_coords (<[addr := coord]> (target_location_coords s)) s)
       = set_target_location_coords (<[addr := coord]> (target_location_coords s))
           (check_target_locations py lat lon s).
Proof.
  intros Hstale. split; [apply geocode_callback_coords|].
  intros coord lat lon. unfold check_target_locations.
  cbn [is_active target_locations set_target_location_coords].
  destruct (is_active s) eqn:Hact; cbn [negb]; [|reflexivity].
  destruct (target_locations s) as [|t ts] eqn:Hts; [reflexivity|].
  set (targets := t :: ts) in *.
  rewrite !inside_any_target_spec.
  cbn [target_location_coords set_target_location_coords].
  destruct (stale_entry_unused (target_location_coords s) addr coord lat lon targets
              Hstale) as [He Hr].
  rewrite He, Hr. clear He Hr. unfold auto_mute.
  destruct (existsb _ targets), (is_muted s) eqn:Hm; simpl; rewrite ?Hm; reflexivity.
Qed.

End Geocoding.

(** C2 (as the claim has it) fails: the zone ["Office"] is added, its
    geocoding is requested, and the zone is deleted before the answer
    arrives; the late answer is stored although the zone list is empty. *)
Lemma stale_geocode_is_stored :
  target_locations office_deleted = []
  /\ geocode_requests (events office_deleted) = ["Office"]
  /\ (target_location_coords office_deleted !! "Office") = None
  /\ (target_location_coords
        (geocode_callback Approx.lib "Office" (GeocodePlacemarks [Some office_coord])
           office_deleted) !! "Office")
     = Some office_coord.
Proof. repeat split; vm_compute; reflexivity. Qed.

(** [geocode_callback_ignores_zone_list] on the late answer for ["Office"]. *)
Lemma geocode_callback_ignores_zone_list_witness :
("Office" ∉ map address (target_locations office_deleted))
  /\ target_location_coords
       (geocode_callback Approx.lib "Office" (GeocodePlacemarks [Some office_coord])
          office_deleted)
     = <["Office" := office_coord]> (target_location_coords office_deleted).
Proof.
  assert (H : "Office" ∉ map address (target_locations office_deleted)).
  { change (target_locations office_deleted) with (@nil TargetZone).
    apply not_elem_of_nil. }
  split; [exact H|].
  exact (proj1 (geocode_callback_ignores_zone_list Approx.lib "Office"
                  (GeocodePlacemarks [Some office_coord]) office_deleted H)).
Defined.

(** * Further properties of the code *)

(** ** What a cycle and the callbacks around it leave alone *)

Section Frames.

Variable py : PyLib.

(** A cycle assigns [inside_target_zone], [is_muted] and the label of the
    mute item, and extends the trace; nothing else. *)
Lemma check_target_locations_frame (lat lon : float) (s : App) :
  let s' := check_target_locations py lat lon s in
  s' = set_events (events s')
         (set_mute_item (mute_item s')
            (set_is_muted (is_muted s')
               (set_inside_target_zone (inside_target_zone s') s))).
Proof.
  unfold check_target_locations.
  destruct (is_active s) eqn:Hact; cbn [negb]; [|destruct s; reflexivity].
  destruct (target_locations s) as [|t ts] eqn:Hts; [destruct s; reflexivity|].
  rewrite inside_any_target_spec. unfold auto_mute.
  destruct (existsb _ _), (is_muted s) eqn:Hm; simpl; rewrite ?Hm; simpl;
    destruct s; reflexivity.
Qed.

(** The label of the mute item follows [is_muted] through a cycle. *)
Lemma check_target_locations_mute_item (lat lon : float) (s : App) :
  mute_item s = (if is_muted s then UNMUTE_TITLE else MUTE_TITLE) ->
  let s' := check_target_locations py lat lon s in
  mute_item s' = (if is_muted s' then UNMUTE_TITLE else MUTE_TITLE).
Proof.
  intros Hlabel. unfold check_target_locations.
  destruct (is_active s) eqn:Hact; cbn [negb]; [|exact Hlabel].
  destruct (target_locations s) as [|t ts] eqn:Hts; [exact Hlabel|].
  rewrite inside_any_target_spec. unfold auto_mute.
  destruct (existsb _ _), (is_muted s) eqn:Hm; simpl; rewrite ?Hm; simpl;
    rewrite ?Hm; try reflexivity; exact Hlabel.
Qed.

Lemma location_updated_frame (location : Coord) (s : App) :
  let s' := location_updated py location s in
  s' = set_events (events s')
         (set_mute_item (mute_item s')
            (set_is_muted (is_muted s')
               (set_inside_target_zone (inside_target_zone s')
                  (set_location_item (location_item s')
                     (set_current_location (Some location) s))))).
Proof.
  unfold location_updated. destruct location as [lat lon]. simpl.
  set (s0 := set_location_item _ _).
  pose proof (check_target_locations_frame lat lon s0) as Hframe. simpl in Hframe.
  pose proof (f_equal location_item Hframe) as Hitem. simpl in Hitem.
  rewrite Hitem. rewrite Hframe at 1. reflexivity.
Qed.

Lemma geocode_callback_frame (addr : string) (result : GeocodeResult) (s : App) :
  let s' := geocode_callback py addr result s in
  s' = set_events (events s')
         (set_mute_item (mute_item s')
            (set_is_muted (is_muted s')
               (set_inside_target_zone (inside_target_zone s')
                  (set_target_location_coords (target_location_coords s') s)))).
Proof.
  unfold geocode_callback.
  destruct result as [|[|[[lat lon]|] rest]]; try (destruct s; reflexivity).
  destruct (current_location s) as [[clat clon]|] eqn:Hloc; simpl; rewrite Hloc.
  - rewrite (check_target_locations_frame clat clon) at 1.
    destruct (check_target_locations_config py clat clon
                (set_target_location_coords
                   (<[addr := (lat, lon)]> (target_location_coords s)) s))
      as (_ & _ & Hc).
    rewrite Hc. reflexivity.
  - destruct s; reflexivity.
Qed.

End Frames.

(** A reconciliation assigns [is_muted], the label of the mute item and its
    timer, and extends the trace; nothing else. *)
Lemma mute_sync_callback_state (result : option string) (s : App) :
  let s' := mute_sync_callback result s in
  s' = set_events (events s')
         (set_mute_sync_timer true
            (set_mute_item (mute_item s') (set_is_muted (is_muted s') s))).
Proof.
  unfold mute_sync_callback, start_mute_sync_timer, stop_mute_sync_timer.
  destruct result as [output|]; simpl.
  - destruct (is_muted s) eqn:Hm, (system_muted_of output) eqn:Hsys,
      (mute_sync_timer s) eqn:Ht; simpl; rewrite ?Hm, ?Ht; simpl;
      destruct s; simpl in *; subst; reflexivity.
  - destruct (is_muted s) eqn:Hm, (mute_sync_timer s) eqn:Ht; simpl;
      rewrite ?Hm, ?Ht; simpl; destruct s; simpl in *; subst; reflexivity.
Qed.

(** ** Invariants of the running application *)

Lemma init_file_in_sync (auth_status : AuthorizationStatus) (file : FileState) :
  file_in_sync (init auth_status file).
Proof.
  unfold file_in_sync, file_of, init, start_mute_sync_timer, stop_mute_sync_timer.
  generalize (load_target_locations (update_interval_menu (initial_attributes file))).
  intros s0. destruct auth_status; cbn; destruct (mute_sync_timer s0); reflexivity.
Qed.

Section Invariants.

Variable py : PyLib.

Lemma handle_file_in_sync (stimulus : Stimulus) (s : App) :
  file_in_sync s -> file_in_sync (handle py stimulus s).
Proof.
  unfold file_in_sync, file_of. intros Hsync.
  destruct stimulus as [| |a r|index action a r|label seconds|auth|result|auth
                        |addr result|locations| |status]; cbn [handle].
  - (* toggle_status *) reflexivity.
  - (* manual_mute_toggle *)
    unfold manual_mute_toggle. destruct (is_muted s); exact Hsync.
  - (* add_location *)
    unfold add_location.
    destruct (clicked a), (PyStr.truthy (PyStr.strip (text a))); simpl; try exact Hsync.
    destruct (clicked r); [|exact Hsync].
    destruct (PyStr.int _) as [v|]; [|exact Hsync].
    destruct (v <=? 0); [exact Hsync|reflexivity].
  - (* edit_location *)
    unfold edit_location. cbn [target_locations emit set_events].
    destruct (target_locations s !! index) as [location|]; [|exact Hsync].
    destruct (action =? 1).
    + destruct (clicked a), (PyStr.truthy (PyStr.strip (text a))); simpl;
        try exact Hsync.
      destruct (clicked r); [|exact Hsync].
      destruct (PyStr.int _) as [v|]; [|exact Hsync].
      destruct (v <=? 0); [exact Hsync|].
      destruct (negb _); [destruct (target_location_coords s !! address location)|];
        reflexivity.
    + destruct (action =? 0); [|exact Hsync].
      destruct (target_location_coords s !! address location); reflexivity.
  - (* set_interval_action *)
    unfold set_interval_action. destruct (60 <=? seconds); [|exact Hsync].
    unfold start_location_timer, stop_location_timer. cbn.
    destruct (is_active s) eqn:Hact; cbn; [|reflexivity].
    destruct (location_timer s); cbn; rewrite Hact; reflexivity.
  - (* refresh_location *)
    unfold refresh_location, update_location_authorization_ui.
    destruct auth; exact Hsync.
  - (* mute_sync_callback *)
    rewrite (mute_sync_callback_state result s). exact Hsync.
  - (* location_timer_callback *)
    unfold location_timer_callback, update_location_authorization_ui,
      start_location_timer, stop_location_timer.
    destruct (is_active s) eqn:Hact, auth; cbn; rewrite ?Hact; cbn;
      try exact Hsync; destruct (location_timer s); cbn; rewrite ?Hact; cbn;
      rewrite ?Hact; exact Hsync.
  - (* geocode_callback *)
    rewrite (geocode_callback_frame py addr result s). exact Hsync.
  - (* locationManager_didUpdateLocations *)
    unfold locationManager_didUpdateLocations.
    destruct (last locations) as [location|]; [|exact Hsync].
    rewrite (location_updated_frame py location s). exact Hsync.
  - exact Hsync.
  - unfold locationManager_didChangeAuthorizationStatus, update_location_authorization_ui.
    destruct status; exact Hsync.
Qed.

End Invariants.

Lemma init_display_in_sync (auth_status : AuthorizationStatus) (file : FileState) :
  display_in_sync (init auth_status file).
Proof.
  unfold display_in_sync, init, start_mute_sync_timer, stop_mute_sync_timer.
  assert (Hload : forall s0,
             let s1 := load_target_locations s0 in
             is_muted s1 = is_muted s0 /\ mute_item s1 = mute_item s0
             /\ (status_item s0
                 = (if is_active s0 then "🟢 Status: Active" else "🔴 Status: Inactive") ->
                 status_item s1
                 = (if is_active s1 then "🟢 Status: Active" else "🔴 Status: Inactive"))).
  { intros s0. unfold load_target_locations.
    destruct (settings_file s0) as [| |[locations|locations settings|]];
      rewrite ?geocode_missing_spec; cbn; auto.
    unfold update_status, start_location_timer, stop_location_timer. cbn.
    destruct (default false (settings ≫= saved_is_active)); cbn;
      [destruct (location_timer s0)|]; cbn; auto. }
  destruct (Hload (update_interval_menu (initial_attributes file))) as (Hm & Hl & Hs).
  specialize (Hs eq_refl). revert Hm Hl Hs.
  generalize (load_target_locations (update_interval_menu (initial_attributes file))).
  intros s0 Hm Hl Hs. cbn in Hm, Hl.
  destruct auth_status; cbn; destruct (mute_sync_timer s0); cbn;
    rewrite ?Hm, ?Hl; repeat split; try reflexivity; exact Hs.
Qed.

Section Display.

Variable py : PyLib.

Local Ltac sync := try solve [repeat split; first [assumption | reflexivity]].

Lemma handle_display_in_sync (stimulus : Stimulus) (s : App) :
  display_in_sync s -> display_in_sync (handle py stimulus s).
Proof.
  unfold display_in_sync. intros (Hm & Hs & Ht & Hi & Him).
  unfold update_target_locations_menu, update_interval_menu in *. cbn in Ht, Hi, Him.
  destruct stimulus as [| |a r|index action a r|label seconds|auth|result|auth
                        |addr result|locations| |status]; cbn [handle].
  - (* toggle_status *)
    unfold toggle_status, update_status, start_location_timer, stop_location_timer.
    cbn. destruct (is_active s) eqn:Hact; cbn.
    + destruct (location_timer s); cbn; repeat split; assumption || reflexivity.
    + destruct (location_timer s); cbn; repeat split; assumption || reflexivity.
  - (* manual_mute_toggle *)
    unfold manual_mute_toggle. destruct (is_muted s) eqn:Hmu; cbn; rewrite Hmu; sync.
  - (* add_location *)
    unfold add_location.
    destruct (clicked a), (PyStr.truthy (PyStr.strip (text a))); cbn; sync.
    destruct (clicked r); cbn; sync.
    destruct (PyStr.int _) as [v|]; cbn; sync.
    destruct (v <=? 0); cbn; sync.
  - (* edit_location *)
    unfold edit_location. cbn [target_locations emit set_events].
    destruct (target_locations s !! index) as [location|]; cbn; sync.
    destruct (action =? 1).
    + destruct (clicked a), (PyStr.truthy (PyStr.strip (text a))); cbn; sync.
      destruct (clicked r); cbn; sync.
      destruct (PyStr.int _) as [v|]; cbn; sync.
      destruct (v <=? 0); cbn; sync.
      destruct (negb _); [destruct (target_location_coords s !! address location)|];
        cbn; sync.
    + destruct (action =? 0); cbn; sync.
      destruct (target_location_coords s !! address location); cbn; sync.
  - (* set_interval_action *)
    unfold set_interval_action. destruct (60 <=? seconds); cbn; sync.
    unfold start_location_timer, stop_location_timer. cbn.
    destruct (is_active s) eqn:Hact; cbn; rewrite ?Hact; [|sync].
    destruct (location_timer s); cbn; rewrite ?Hact; cbn; rewrite ?Hact; sync.
  - (* refresh_location *)
    unfold refresh_location, update_location_authorization_ui.
    destruct auth; cbn; sync.
  - (* mute_sync_callback *)
    unfold mute_sync_callback, start_mute_sync_timer, stop_mute_sync_timer.
    destruct result as [output|]; cbn.
    + destruct (is_muted s) eqn:Hmu, (system_muted_of output); cbn;
        rewrite ?Hmu; cbn; destruct (mute_sync_timer s); cbn; rewrite ?Hmu; sync.
    + destruct (mute_sync_timer s); cbn; sync.
  - (* location_timer_callback *)
    unfold location_timer_callback, update_location_authorization_ui,
      start_location_timer, stop_location_timer.
    destruct (is_active s) eqn:Hact, auth; cbn; rewrite ?Hact; cbn; rewrite ?Hact;
      try sync;
      destruct (location_timer s); cbn; rewrite ?Hact; cbn; rewrite ?Hact; sync.
  - (* geocode_callback *)
    pose proof (geocode_callback_frame py addr result s) as Hframe. cbn zeta in Hframe.
    assert (Hlabel : mute_item (geocode_callback py addr result s)
                     = (if is_muted (geocode_callback py addr result s)
                        then UNMUTE_TITLE else MUTE_TITLE)).
    { unfold geocode_callback.
      destruct result as [|[|[[lat lon]|] rest]]; try exact Hm.
      destruct (current_location _) as [[clat clon]|]; [|exact Hm].
      apply check_target_locations_mute_item. exact Hm. }
    split; [exact Hlabel|]. rewrite Hframe. cbn. sync.
  - (* locationManager_didUpdateLocations *)
    unfold locationManager_didUpdateLocations.
    destruct (last locations) as [location|]; [|cbn; sync].
    pose proof (location_updated_frame py location s) as Hframe. cbn zeta in Hframe.
    assert (Hlabel : mute_item (location_updated py location s)
                     = (if is_muted (location_updated py location s)
                        then UNMUTE_TITLE else MUTE_TITLE)).
    { unfold location_updated. destruct location as [lat lon].
      apply check_target_locations_mute_item. exact Hm. }
    split; [exact Hlabel|]. rewrite Hframe. cbn. sync.
  - cbn. sync.
  - unfold locationManager_didChangeAuthorizationStatus, update_location_authorization_ui.
    destruct status; cbn; sync.
Qed.

End Display.

Section Zones.

Variable py : PyLib.

Lemma truthy_nonempty (text : string) : PyStr.truthy text = true -> text <> EmptyString.
Proof. destruct text; [discriminate|congruence]. Qed.

Lemma handle_valid_zones (stimulus : Stimulus) (s : App) :
  Forall valid_zone (target_locations s) ->
  Forall valid_zone (target_locations (handle py stimulus s)).
Proof.
  intros Hvalid.
  destruct stimulus as [| |a r|index action a r|label seconds|auth|result|auth
                        |addr result|locations| |status]; cbn [handle].
  - unfold toggle_status, update_status, start_location_timer, stop_location_timer.
    cbn. destruct (is_active s) eqn:Hact; cbn; destruct (location_timer s); cbn;
      rewrite ?Hact; exact Hvalid.
  - unfold manual_mute_toggle. destruct (is_muted s); exact Hvalid.
  - unfold add_location.
    destruct (clicked a); [|exact Hvalid].
    destruct (PyStr.truthy (PyStr.strip (text a))) eqn:Haddr; [|exact Hvalid].
    cbn. destruct (clicked r); [|exact Hvalid].
    destruct (PyStr.int _) as [v|]; [|exact Hvalid].
    destruct (v <=? 0) eqn:Hv; [exact Hvalid|].
    cbn. apply Forall_app. split; [exact Hvalid|].
    apply Forall_singleton. split; cbn.
    + apply truthy_nonempty. exact Haddr.
    + apply Z.leb_gt in Hv. exact Hv.
  - unfold edit_location. cbn [target_locations emit set_events].
    destruct (target_locations s !! index) as [location|]; [|exact Hvalid].
    destruct (action =? 1).
    + destruct (clicked a); [|exact Hvalid].
      destruct (PyStr.truthy (PyStr.strip (text a))) eqn:Haddr; [|exact Hvalid].
      cbn. destruct (clicked r); [|exact Hvalid].
      destruct (PyStr.int _) as [v|]; [|exact Hvalid].
      destruct (v <=? 0) eqn:Hv; [exact Hvalid|].
      assert (Hnew : Forall valid_zone
                       (<[index := {| address := PyStr.strip (text a); radius := v |}]>
                          (target_locations s))).
      { apply Forall_insert; [exact Hvalid|]. split; cbn.
        - apply truthy_nonempty. exact Haddr.
        - apply Z.leb_gt in Hv. exact Hv. }
      destruct (negb _); [destruct (target_location_coords s !! address location)|];
        exact Hnew.
    + destruct (action =? 0); [|exact Hvalid].
      assert (Hdel : Forall valid_zone (delete index (target_locations s)))
        by (apply Forall_delete; exact Hvalid).
      cbn. destruct (target_location_coords s !! address location); cbn; exact Hdel.
  - unfold set_interval_action. destruct (60 <=? seconds); [|exact Hvalid].
    unfold start_location_timer, stop_location_timer. cbn.
    destruct (is_active s) eqn:Hact; cbn; [|exact Hvalid].
    destruct (location_timer s); cbn; rewrite Hact; exact Hvalid.
  - unfold refresh_location, update_location_authorization_ui.
    destruct auth; exact Hvalid.
  - rewrite (mute_sync_callback_state result s). exact Hvalid.
  - unfold location_timer_callback, update_location_authorization_ui,
      start_location_timer, stop_location_timer.
    destruct (is_active s) eqn:Hact, auth; cbn; rewrite ?Hact; cbn;
      try exact Hvalid; destruct (location_timer s); cbn; rewrite ?Hact; exact Hvalid.
  - rewrite (geocode_callback_frame py addr result s). exact Hvalid.
  - unfold locationManager_didUpdateLocations.
    destruct (last locations) as [location|]; [|exact Hvalid].
    rewrite (location_updated_frame py location s). exact Hvalid.
  - exact Hvalid.
  - unfold locationManager_didChangeAuthorizationStatus, update_location_authorization_ui.
    destruct status; exact Hvalid.
Qed.

(** X1: the settings file always holds the state. Whatever the start-up
    file and whatever the callbacks that follow, the file written last holds
    the zone list, the check interval and the monitoring flag the
    application has now: every method that assigns one of them saves
    before it returns. *)
Theorem settings_file_in_sync (auth_status : AuthorizationStatus) (file : FileState)
    (stimuli : list Stimulus) :
  file_in_sync (run py stimuli (init auth_status file)).
Proof.
  unfold run.
  generalize (init_file_in_sync auth_status file).
  generalize (init auth_status file).
  induction stimuli as [|stimulus rest IH]; intros s Hsync; simpl; [exact Hsync|].
  apply IH. apply handle_file_in_sync. exact Hsync.
Qed.

(** X2: the menu always shows the state. After start-up and any run of
    callbacks, the mute item is labelled after [is_muted], the status item
    after [is_active], the zone submenu lists the zones of [target_locations]
    and the interval submenu marks [location_check_interval]. *)
Theorem display_always_in_sync (auth_status : AuthorizationStatus) (file : FileState)
    (stimuli : list Stimulus) :
  display_in_sync (run py stimuli (init auth_status file)).
Proof.
  unfold run.
  generalize (init_display_in_sync auth_status file).
  generalize (init auth_status file).
  induction stimuli as [|stimulus rest IH]; intros s Hsync; simpl; [exact Hsync|].
  apply IH. apply handle_display_in_sync. exact Hsync.
Qed.

(** X3: the dialogs never store an invalid zone. If every zone of the list
    has a non-empty address and a positive radius, so has every zone after
    any run of callbacks: additions and edits are checked, nothing else
    writes a zone. *)
Theorem zones_stay_valid (stimuli : list Stimulus) (s : App) :
  Forall valid_zone (target_locations s) ->
  Forall valid_zone (target_locations (run py stimuli s)).
Proof.
  unfold run. revert s.
  induction stimuli as [|stimulus rest IH]; intros s Hvalid; simpl; [exact Hvalid|].
  apply IH. apply handle_valid_zones. exact Hvalid.
Qed.

End Zones.

(** [zones_stay_valid] on [monitoring]: a zone is added, a zone with a radius
    of zero is refused, the first zone is edited. *)
Lemma zones_stay_valid_witness :
  Forall valid_zone (target_locations monitoring)
  /\ Forall valid_zone
       (target_locations
          (run Approx.lib
             [ClickAddLocation (ok "Office") (ok "150");
              ClickAddLocation (ok "Cafe") (ok "0");
              ClickLocation 0 1 (ok "Pool") (ok "80")]
             monitoring))
  /\ map address
       (target_locations
          (run Approx.lib
             [ClickAddLocation (ok "Office") (ok "150");
              ClickAddLocation (ok "Cafe") (ok "0");
              ClickLocation 0 1 (ok "Pool") (ok "80")]
             monitoring))
     = ["Pool"; "Office"].
Proof.
  assert (H : Forall valid_zone (target_locations monitoring)).
  { change (target_locations monitoring) with [gym].
    apply Forall_singleton. split; [discriminate|reflexivity]. }
  split; [exact H|]. split; [|vm_compute; reflexivity].
  exact (zones_stay_valid Approx.lib _ monitoring H).
Defined.

(** ** Persistence *)

(** X4: what is saved survives a restart. Starting the application on the
    file [save_target_locations] wrote gives back the zone list, the check
    interval and the monitoring flag; the coordinates are not stored, so the
    map starts empty and every zone is sent to the geocoder again. *)
Theorem restart_round_trip (auth_status : AuthorizationStatus) (s : App) :
  let restarted := init auth_status (settings_file (save_target_locations s)) in
  target_locations restarted = target_locations s
  /\ location_check_interval restarted = location_check_interval s
  /\ is_active restarted = is_active s
  /\ target_location_coords restarted = ∅
  /\ geocode_requests (events restarted) = map address (target_locations s)
  /\ settings_file restarted = settings_file (save_target_locations s).
Proof.
  cbn zeta. unfold init, load_target_locations. cbn [settings_file save_target_locations
    set_settings_file initial_attributes update_interval_menu set_interval_item
    set_interval_item_menu].
  rewrite geocode_missing_spec.
  unfold update_status, start_location_timer, stop_location_timer,
    start_mute_sync_timer, stop_mute_sync_timer.
  assert (Hreq : forall zones,
             geocode_requests (map GeocodeAddressString zones) = zones).
  { induction zones as [|z zs IH]; [reflexivity|]. cbn. f_equal. exact IH. }
  destruct (is_active s), auth_status; cbn; rewrite ?unresolved_empty;
    repeat split; try reflexivity;
    unfold geocode_requests; rewrite ?omap_app; cbn; rewrite ?app_nil_r;
    try apply Hreq.
Qed.

(** X5: start-up on a file that is missing, that cannot be read or parsed,
    or that holds neither a list nor an object, falls back to the defaults:
    no zone, monitoring off, an interval of 300 seconds, no timer for
    position checks; and the file is then written with these defaults. An
    empty JSON object differs in one point: the interval becomes 30. *)
Theorem start_up_defaults (auth_status : AuthorizationStatus) :
  (forall file,
      file = FileMissing \/ file = FileUnreadable \/ file = FileHolds JsonOther ->
      let started := init auth_status file in
      target_locations started = []
      /\ is_active started = false
      /\ location_check_interval started = 300
      /\ location_timer started = false
      /\ geocode_requests (events started) = []
      /\ settings_file started
         = FileHolds (JsonDict (Some [])
             (Some {| saved_check_interval := Some 300;
                      saved_is_active := Some false |})))
  /\ (let started := init auth_status (FileHolds (JsonDict None None)) in
      target_locations started = []
      /\ is_active started = false
      /\ location_check_interval started = 30).
Proof.
  split.
  - intros file [-> | [-> | ->]]; destruct auth_status; cbn; repeat split; reflexivity.
  - destruct auth_status; cbn; repeat split; reflexivity.
Qed.

(** X6: every entry of the interval menu is accepted. Selecting a preset
    of [CHECK_INTERVALS] never meets the minimum-interval alert: the
    interval becomes the preset, the item is titled after its label, the
    submenu marks that entry, and the new interval is saved. *)
Theorem presets_accepted (label : string) (seconds : Z) (s : App) :
  (label, seconds) ∈ CHECK_INTERVALS ->
  let s' := set_interval_action label seconds s in
  location_check_interval s' = seconds
  /\ interval_item s' = "⏱️ Check Interval: " +:+ label
  /\ interval_item_menu s'
     = map (fun entry => if String.eqb (fst entry) label
                         then "✓ " +:+ fst entry else fst entry) CHECK_INTERVALS
  /\ alerts (events s') = alerts (events s)
  /\ settings_file s'
     = FileHolds (JsonDict (Some (target_locations s))
         (Some {| saved_check_interval := Some seconds;
                  saved_is_active := Some (is_active s) |})).
Proof.
  intros Hin. unfold CHECK_INTERVALS in Hin.
  repeat (apply elem_of_cons in Hin; destruct Hin as [[= -> ->] | Hin]);
    try (apply elem_of_nil in Hin; contradiction);
    unfold set_interval_action, start_location_timer, stop_location_timer;
    cbn -[alerts];
    destruct (is_active s) eqn:Hact; cbn -[alerts];
    try (destruct (location_timer s); cbn -[alerts]); rewrite ?Hact;
    repeat split; try reflexivity;
    try (try match goal with
             | |- alerts (events ?x) = _ =>
                 let trace := eval cbn in (events x) in change (events x) with trace
             end;
         rewrite !alerts_app; cbn; rewrite ?app_nil_r; reflexivity);
    cbn; rewrite ?Hact; reflexivity.
Qed.

(** [presets_accepted] on the entry of ten minutes. *)
Lemma presets_accepted_witness :
  ("10 Min", 600) ∈ CHECK_INTERVALS
  /\ location_check_interval (set_interval_action "10 Min" 600 monitoring) = 600
  /\ interval_item (set_interval_action "10 Min" 600 monitoring)
     = "⏱️ Check Interval: 10 Min".
Proof.
  assert (H : ("10 Min", 600) ∈ CHECK_INTERVALS).
  { unfold CHECK_INTERVALS. repeat constructor. }
  split; [exact H|].
  destruct (presets_accepted "10 Min" 600 monitoring H) as (Hi & Ht & _).
  split; [exact Hi | exact Ht].
Defined.

(** ** Editing and deleting a zone *)

(** X7: an edit that does not go through assigns nothing. When the index is
    outside the zone list, when the answer to the Edit/Delete alert is
    neither, or when Edit is chosen and a dialog is cancelled, the address
    is empty, or the radius is not a positive integer, every attribute and
    the settings file are as before; only the trace grows. *)
Theorem edit_location_rejects (index : nat) (action_response : Z)
    (address_response radius_response : Response) (s : App) :
  target_locations s !! index = None
  \/ (action_response <> 1 /\ action_response <> 0)
  \/ (action_response = 1
      /\ (clicked address_response = false
          \/ PyStr.strip (text address_response) = EmptyString
          \/ clicked radius_response = false
          \/ match PyStr.int (PyStr.strip (text radius_response)) with
             | Some r => r <= 0
             | None => True
             end)) ->
  let s' := edit_location index action_response address_response radius_response s in
  s' = set_events (events s') s.
Proof.
  intros Hcase. unfold edit_location. cbn [target_locations emit set_events].
  destruct (target_locations s !! index) as [location|] eqn:Hloc;
    [|destruct s; reflexivity].
  destruct Hcase as [Hnone | [[Hne1 Hne0] | [-> Hbad]]]; [discriminate| |].
  - apply Z.eqb_neq in Hne1, Hne0. rewrite Hne1, Hne0. destruct s; reflexivity.
  - cbn [Z.eqb Pos.eqb].
    destruct (clicked address_response); [|destruct s; reflexivity].
    destruct (PyStr.strip (text address_response)) as [|c rest] eqn:Haddr;
      [destruct s; reflexivity|].
    cbn [PyStr.truthy negb orb].
    destruct (clicked radius_response); [|destruct s; reflexivity].
    destruct (PyStr.int _) as [v|]; [|destruct s; reflexivity].
    destruct Hbad as [Hbad | [Hbad | [Hbad | Hbad]]]; try discriminate.
    apply Z.leb_le in Hbad. rewrite Hbad. destruct s; reflexivity.
Qed.

(** [edit_location_rejects] on an edit of [gym] to a radius of [-5]. *)
Lemma edit_location_rejects_witness :
  (PyStr.int (PyStr.strip (text (ok "-5"))) = Some (-5))
  /\ edit_location 0 1 (ok "Gym") (ok "-5") monitoring
     = set_events (events (edit_location 0 1 (ok "Gym") (ok "-5") monitoring)) monitoring.
Proof.
  split; [reflexivity|].
  apply (edit_location_rejects 0 1 (ok "Gym") (ok "-5") monitoring).
  right. right. split; [reflexivity|].
  right. right. right. change (-5 <= 0). lia.
Defined.

Lemma geocode_requests_app (t1 t2 : list Event) :
  geocode_requests (t1 ++ t2) = geocode_requests t1 ++ geocode_requests t2.
Proof. unfold geocode_requests. apply omap_app. Qed.

(** X8: how edits keep the coordinate map in step with the zone list.
    Deleting the zone at [index] removes that entry of the list and the
    coordinate stored for its address, and asks the geocoder nothing. An
    accepted edit replaces the entry in place; if the address is unchanged
    the coordinate is kept and nothing is asked, and if it changed the old
    coordinate is removed and the new address is sent to the geocoder. *)
Theorem edit_location_cache (index : nat) (location : TargetZone)
    (address_response radius_response : Response) (r : Z) (s : App) :
  target_locations s !! index = Some location ->
  (let s' := edit_location index 0 address_response radius_response s in
   target_locations s' = delete index (target_locations s)
   /\ target_location_coords s' = delete (address location) (target_location_coords s)
   /\ geocode_requests (events s') = geocode_requests (events s))
  /\ (clicked address_response = true ->
      PyStr.strip (text address_response) <> EmptyString ->
      clicked radius_response = true ->
      PyStr.int (PyStr.strip (text radius_response)) = Some r ->
      0 < r ->
      let addr := PyStr.strip (text address_response) in
      let s' := edit_location index 1 address_response radius_response s in
      target_locations s'
      = <[index := {| address := addr; radius := r |}]> (target_locations s)
      /\ (addr = address location ->
          target_location_coords s' = target_location_coords s
          /\ geocode_requests (events s') = geocode_requests (events s))
      /\ (addr <> address location ->
          target_location_coords s'
          = delete (address location) (target_location_coords s)
          /\ geocode_requests (events s') = geocode_requests (events s) ++ [addr])).
Proof.
  intros Hloc. split.
  - unfold edit_location. cbn [target_locations emit set_events]. rewrite Hloc.
    cbn -[geocode_requests].
    destruct (target_location_coords s !! address location) eqn:Hc;
      cbn -[geocode_requests]; rewrite ?geocode_requests_app; cbn;
      rewrite ?app_nil_r; repeat split; try reflexivity.
    symmetry. apply delete_id. exact Hc.
  - intros Ha Haddr Hr Hint Hpos. cbn zeta.
    unfold edit_location. cbn [target_locations emit set_events]. rewrite Hloc.
    cbn [Z.eqb Pos.eqb]. rewrite Ha.
    destruct (PyStr.strip (text address_response)) as [|c rest] eqn:Hstrip;
      [congruence|].
    cbn [PyStr.truthy negb orb]. rewrite Hr, Hint.
    assert (Hr0 : (r <=? 0) = false) by (apply Z.leb_gt; exact Hpos). rewrite Hr0.
    destruct (String.eqb (address location) (String c rest)) eqn:Heq;
      cbn -[geocode_requests].
    + apply String.eqb_eq in Heq.
      repeat split; try reflexivity; try congruence;
        rewrite ?geocode_requests_app; cbn; rewrite ?app_nil_r; reflexivity.
    + apply String.eqb_neq in Heq.
      split; [destruct (target_location_coords s !! address location); reflexivity|].
      split; [congruence|]. intros _.
      destruct (target_location_coords s !! address location) eqn:Hc;
        cbn -[geocode_requests]; rewrite ?geocode_requests_app; cbn;
        rewrite ?app_nil_r; split; try reflexivity.
      symmetry. apply delete_id. exact Hc.
Qed.

(** [edit_location_cache] on [monitoring]: deleting [gym] empties the list
    and the coordinate map. *)
Lemma edit_location_cache_witness :
  (target_locations monitoring !! 0%nat) = Some gym
  /\ target_locations (edit_location 0 0 (ok "Gym") (ok "1") monitoring)
     = delete 0%nat (target_locations monitoring)
  /\ target_location_coords (edit_location 0 0 (ok "Gym") (ok "1") monitoring)
     = delete (address gym) (target_location_coords monitoring).
Proof.
  assert (H : (target_locations monitoring !! 0%nat) = Some gym) by reflexivity.
  split; [exact H|].
  destruct (edit_location_cache 0 gym (ok "Gym") (ok "1") 1 monitoring H)
    as ((Ht & Hc & _) & _).
  split; [exact Ht | exact Hc].
Defined.

(** ** Reconciliation and the next cycle *)

(** The trace of one reconciliation: the restart of its timer. *)
Lemma mute_sync_callback_events (result : option string) (s : App) :
  events (mute_sync_callback result s)
  = events s
    ++ (if mute_sync_timer s then [TimerCancel MuteSyncTimer] else [])
    ++ [TimerStart MuteSyncTimer 10]
  /\ mute_sync_timer (mute_sync_callback result s) = true.
Proof.
  unfold mute_sync_callback, start_mute_sync_timer, stop_mute_sync_timer.
  destruct result as [output|]; cbn.
  - destruct (is_muted s) eqn:Hm, (system_muted_of output) eqn:Hsys,
      (mute_sync_timer s) eqn:Ht; cbn; rewrite ?Hm, ?Ht; cbn;
      rewrite <- ?app_assoc; split; reflexivity.
  - destruct (mute_sync_timer s) eqn:Ht; cbn; rewrite <- ?app_assoc; split; reflexivity.
Qed.

(** X9: reconciliation is idempotent. A second run of [mute_sync_callback]
    that reads the same answer from the system changes no attribute: only
    the trace grows, by the restart of the timer, and no mute or unmute
    command is in it. *)
Theorem mute_sync_idempotent (result : option string) (s : App) :
  let s1 := mute_sync_callback result s in
  let s2 := mute_sync_callback result s1 in
  s2 = set_events (events s2) s1
  /\ is_muted s2 = is_muted s1
  /\ mute_item s2 = mute_item s1
  /\ mute_commands (events s2) = mute_commands (events s1).
Proof.
  cbn zeta.
  assert (Hstate : mute_sync_callback result (mute_sync_callback result s)
                   = set_events (events (mute_sync_callback result (mute_sync_callback result s)))
                       (mute_sync_callback result s)).
  { unfold mute_sync_callback, start_mute_sync_timer, stop_mute_sync_timer.
    destruct result as [output|]; cbn.
    - destruct (is_muted s) eqn:Hm, (system_muted_of output) eqn:Hsys,
        (mute_sync_timer s) eqn:Ht; do 3 (cbn; rewrite ?Hm, ?Ht); reflexivity.
    - destruct (mute_sync_timer s) eqn:Ht; do 3 (cbn; rewrite ?Ht); reflexivity. }
  split; [exact Hstate|].
  split; [rewrite Hstate; reflexivity|].
  split; [rewrite Hstate; reflexivity|].
  destruct (mute_sync_callback_events result (mute_sync_callback result s)) as [Hev _].
  destruct (mute_sync_callback_events result s) as [_ Htimer].
  rewrite Hev, Htimer, !mute_commands_app. cbn. apply app_nil_r.
Qed.

Section ZoneWins.

Variable py : PyLib.

(** X10: the zone decides. With monitoring on and a zone configured, a
    cycle ends with [is_muted] and [inside_target_zone] both equal to the
    membership of the position, whatever [is_muted] was before, and sends at
    most one command. A manual toggle or a reconciliation made just before
    the cycle does not change that outcome. *)
Theorem cycle_enforces_zone (lat lon : float) (s : App) :
  is_active s = true ->
  target_locations s <> [] ->
  let inside := existsb (zone_contains py (target_location_coords s) lat lon)
                  (target_locations s) in
  let s' := check_target_locations py lat lon s in
  inside_target_zone s' = inside
  /\ is_muted s' = inside
  /\ (length (mute_commands (events s')) <= length (mute_commands (events s)) + 1)%nat
  /\ is_muted (check_target_locations py lat lon (manual_mute_toggle s)) = inside
  /\ forall result,
       is_muted (check_target_locations py lat lon (mute_sync_callback result s)) = inside.
Proof.
  intros Hact Hne. cbn zeta.
  destruct (check_target_locations_enforces py lat lon s Hact Hne) as (Hi & Hm & Hev).
  split; [exact Hi|]. split; [exact Hm|]. split; [|split].
  - rewrite Hev, length_app. destruct (eqb _ _); cbn; lia.
  - assert (Hact' : is_active (manual_mute_toggle s) = true)
      by (unfold manual_mute_toggle; destruct (is_muted s); exact Hact).
    assert (Hne' : target_locations (manual_mute_toggle s) <> [])
      by (unfold manual_mute_toggle; destruct (is_muted s); exact Hne).
    destruct (check_target_locations_enforces py lat lon _ Hact' Hne') as (_ & Hm' & _).
    rewrite Hm'. unfold manual_mute_toggle. destruct (is_muted s); reflexivity.
  - intros result.
    pose proof (mute_sync_callback_state result s) as Hstate. cbn zeta in Hstate.
    assert (Hact' : is_active (mute_sync_callback result s) = true)
      by (rewrite Hstate; exact Hact).
    assert (Hne' : target_locations (mute_sync_callback result s) <> [])
      by (rewrite Hstate; exact Hne).
    destruct (check_target_locations_enforces py lat lon _ Hact' Hne') as (_ & Hm' & _).
    rewrite Hm'. rewrite Hstate. reflexivity.
Qed.

(** X11: a late coordinate takes effect at once. With monitoring on and a
    position known, when the geocoder answers for the address of a zone and
    the position is within its radius of the coordinate, the completion
    handler stores the coordinate and its own cycle mutes: the engine is
    muted and inside when the handler returns, and the mute command was sent
    unless the engine was muted already. *)
Theorem geocode_resolution_mutes (addr : string) (target_lat target_lon lat lon : float)
    (others : list (option Coord)) (zone : TargetZone) (s : App) :
  is_active s = true ->
  current_location s = Some (lat, lon) ->
  zone ∈ target_locations s ->
  address zone = addr ->
  PyFloat.le_int (calculate_distance py lat lon target_lat target_lon) (radius zone)
  = true ->
  let s' := geocode_callback py addr
              (GeocodePlacemarks (Some (target_lat, target_lon) :: others)) s in
  (target_location_coords s' !! addr) = Some (target_lat, target_lon)
  /\ inside_target_zone s' = true
  /\ is_muted s' = true
  /\ mute_commands (events s')
     = mute_commands (events s) ++ (if is_muted s then [] else [true]).
Proof.
  intros Hact Hloc Hin Haddr Hle. cbn zeta.
  split.
  { rewrite geocode_callback_coords. apply lookup_insert_eq. }
  unfold geocode_callback. cbn [current_location set_target_location_coords].
  rewrite Hloc.
  set (s0 := set_target_location_coords _ s).
  assert (Hne : target_locations s0 <> []).
  { cbn. intros Hnil. rewrite Hnil in Hin. apply elem_of_nil in Hin. exact Hin. }
  destruct (check_target_locations_enforces py lat lon s0 Hact Hne) as (Hi & Hm & Hev).
  assert (Hinside : existsb (zone_contains py (target_location_coords s0) lat lon)
                      (target_locations s0) = true).
  { apply existsb_exists. exists zone. split.
    - apply list_elem_of_In. exact Hin.
    - unfold zone_contains. cbn. rewrite Haddr, lookup_insert_eq. exact Hle. }
  rewrite Hinside in Hi, Hm, Hev.
  split; [exact Hi|]. split; [exact Hm|].
  rewrite Hev. cbn. destruct (is_muted s); reflexivity.
Qed.

End ZoneWins.

(** [cycle_enforces_zone] on [monitoring], near the zone. *)
Lemma cycle_enforces_zone_witness :
  (is_active monitoring = true /\ target_locations monitoring <> [])
  /\ is_muted (check_target_locations Approx.lib (fst near_gym) (snd near_gym) monitoring)
     = existsb (zone_contains Approx.lib (target_location_coords monitoring)
                  (fst near_gym) (snd near_gym))
         (target_locations monitoring).
Proof.
  assert (H1 : is_active monitoring = true) by (vm_compute; reflexivity).
  assert (H2 : target_locations monitoring <> []) by (vm_compute; discriminate).
  split; [auto|].
  destruct (cycle_enforces_zone Approx.lib (fst near_gym) (snd near_gym) monitoring H1 H2)
    as (_ & Hm & _).
  exact Hm.
Defined.

(** [geocode_resolution_mutes] on [waiting_for_geocoder]: the answer for
    ["Gym"] mutes at once. *)
Lemma geocode_resolution_mutes_witness :
  (is_active waiting_for_geocoder = true
   /\ current_location waiting_for_geocoder = Some near_gym
   /\ is_muted waiting_for_geocoder = false)
  /\ is_muted (geocode_callback Approx.lib "Gym" gym_resolved waiting_for_geocoder) = true.
Proof.
  split; [repeat split; vm_compute; reflexivity|].
  assert (H1 : is_active waiting_for_geocoder = true) by (vm_compute; reflexivity).
  assert (H2 : current_location waiting_for_geocoder = Some (fst near_gym, snd near_gym))
    by (vm_compute; reflexivity).
  assert (H3 : gym ∈ target_locations waiting_for_geocoder).
  { change (target_locations waiting_for_geocoder) with [gym]. constructor. }
  assert (H5 : PyFloat.le_int
                 (calculate_distance Approx.lib (fst near_gym) (snd near_gym)
                    (fst gym_coord) (snd gym_coord)) (radius gym) = true)
    by (vm_compute; reflexivity).
  destruct (geocode_resolution_mutes Approx.lib "Gym" (fst gym_coord) (snd gym_coord)
              (fst near_gym) (snd near_gym) [] gym waiting_for_geocoder
              H1 H2 H3 eq_refl H5) as (_ & _ & Hm & _).
  exact Hm.
Defined.

(** ** Location provider callbacks *)

(** X12: only a position fix or a geocoder answer can move the mute state.
    The periodic position request, the manual refresh, a provider error, a
    change of authorization and quitting leave [is_muted],
    [inside_target_zone] and the label of the mute item as they are and send
    no mute or unmute command, whatever the authorization status. *)
Theorem provider_callbacks_keep_mute_state (auth_status : AuthorizationStatus) (s : App) :
  mute_state_kept s (fst (location_timer_callback auth_status s))
  /\ mute_state_kept s (fst (refresh_location auth_status s))
  /\ mute_state_kept s (fst (locationManager_didFailWithError s))
  /\ mute_state_kept s (locationManager_didChangeAuthorizationStatus auth_status s)
  /\ mute_state_kept s (fst (quit_app s)).
Proof.
  unfold mute_state_kept, location_timer_callback, refresh_location,
    locationManager_didFailWithError, locationManager_didChangeAuthorizationStatus,
    quit_app, update_location_authorization_ui, start_location_timer,
    stop_location_timer, stop_mute_sync_timer.
  destruct (is_active s) eqn:Hact, auth_status, (location_timer s) eqn:Hl,
    (mute_sync_timer s) eqn:Hs;
    do 2 (cbn -[mute_commands]; rewrite ?Hact, ?Hl, ?Hs);
    repeat split; try reflexivity;
    repeat match goal with
      | |- context [events ?x] =>
          let trace := eval cbn in (events x) in
          progress change (events x) with trace
      end;
    rewrite ?mute_commands_app; cbn; rewrite ?app_nil_r; reflexivity.
Qed.

(** X13: the position timer keeps its cadence while monitoring is on. When
    it fires with monitoring on it is scheduled again with the current
    interval, after cancelling the timer the attribute held, whether or not
    location access is granted; a position is requested only when access is
    granted. With monitoring off it requests nothing and is not scheduled
    again. *)
Theorem location_timer_cadence (auth_status : AuthorizationStatus) (s : App) :
  let s' := fst (location_timer_callback auth_status s) in
  let calls := snd (location_timer_callback auth_status s) in
  if is_active s then
    events s'
    = events s
      ++ (if location_timer s then [TimerCancel LocationTimer] else [])
      ++ [TimerStart LocationTimer (location_check_interval s)]
    /\ location_timer s' = true
    /\ calls = (if authorized auth_status then [RequestLocation] else [])
  else s' = s /\ calls = [].
Proof.
  unfold location_timer_callback, update_location_authorization_ui,
    start_location_timer, stop_location_timer.
  cbn zeta.
  destruct (is_active s) eqn:Hact; [|cbn; rewrite ?Hact; split; reflexivity].
  destruct auth_status, (location_timer s) eqn:Hl;
    do 3 (cbn; rewrite ?Hact, ?Hl); repeat split; rewrite <- ?app_assoc; reflexivity.
Qed.

(** ** Switching monitoring on and off *)

Section Switch.

Variable py : PyLib.

(** X14: the status item switches the engine. A click flips [is_active],
    and a second click flips it back. Switching off cancels the position
    timer if there is one and starts none, and from then on position fixes
    leave the mute state alone: a Mac muted by a zone stays muted. Switching
    on starts the position timer with the current interval. Neither click
    sends a mute or unmute command. *)
Theorem monitoring_switch (fixes : list Coord) (s : App) :
  let s1 := toggle_status s in
  is_active s1 = negb (is_active s)
  /\ is_active (toggle_status s1) = is_active s
  /\ mute_state_kept s s1
  /\ if is_active s then
       events s1
       = events s
         ++ [Notification "MacMuteOnLocation" "Status Changed"
               "Application is now INACTIVE - Location monitoring stopped"]
         ++ (if location_timer s then [TimerCancel LocationTimer] else [])
       /\ mute_state_kept s (process_locations py fixes s1)
     else
       events s1
       = events s
         ++ [Notification "MacMuteOnLocation" "Status Changed"
               "Application is now ACTIVE - Location monitoring started"]
         ++ (if location_timer s then [TimerCancel LocationTimer] else [])
         ++ [TimerStart LocationTimer (location_check_interval s)].
Proof.
  cbn zeta.
  assert (Hshape : toggle_status s
                   = set_settings_file (settings_file (toggle_status s))
                       (set_location_timer (location_timer (toggle_status s))
                          (set_status_item (status_item (toggle_status s))
                             (set_is_active (negb (is_active s))
                                (set_events (events (toggle_status s)) s))))).
  { unfold toggle_status, update_status, start_location_timer, stop_location_timer.
    destruct (is_active s) eqn:Hact, (location_timer s) eqn:Hl;
      do 3 (cbn; rewrite ?Hact, ?Hl); destruct s; cbn in *; subst; reflexivity. }
  assert (Hev : events (toggle_status s)
                = events s
                  ++ (if is_active s then
                        [Notification "MacMuteOnLocation" "Status Changed"
                           "Application is now INACTIVE - Location monitoring stopped"]
                        ++ (if location_timer s then [TimerCancel LocationTimer] else [])
                      else
                        [Notification "MacMuteOnLocation" "Status Changed"
                           "Application is now ACTIVE - Location monitoring started"]
                        ++ (if location_timer s then [TimerCancel LocationTimer] else [])
                        ++ [TimerStart LocationTimer (location_check_interval s)])).
  { unfold toggle_status, update_status, start_location_timer, stop_location_timer.
    destruct (is_active s) eqn:Hact, (location_timer s) eqn:Hl;
      do 3 (cbn; rewrite ?Hact, ?Hl); rewrite <- ?app_assoc; reflexivity. }
  assert (Hactive : is_active (toggle_status s) = negb (is_active s))
    by (rewrite Hshape; reflexivity).
  assert (Hkept : mute_state_kept s (toggle_status s)).
  { unfold mute_state_kept. rewrite Hev, mute_commands_app.
    rewrite Hshape at 1 2 3. cbn [is_muted inside_target_zone mute_item
      set_settings_file set_location_timer set_status_item set_is_active set_events].
    repeat split.
    destruct (is_active s), (location_timer s); cbn; apply app_nil_r. }
  split; [exact Hactive|]. split; [|split; [exact Hkept|]].
  - assert (Hshape2 : forall s0, is_active (toggle_status s0) = negb (is_active s0)).
    { intros s0. unfold toggle_status, update_status, start_location_timer,
        stop_location_timer.
      destruct (is_active s0) eqn:Ha0, (location_timer s0) eqn:Hl0;
        do 3 (cbn; rewrite ?Ha0, ?Hl0); reflexivity. }
    rewrite Hshape2, Hactive. apply negb_involutive.
  - destruct (is_active s) eqn:Hact.
    + split; [exact Hev|].
      destruct (process_locations_skipped py fixes (toggle_status s))
        as (_ & _ & Hm & Hi & He).
      { intros lat lon s0 Ha _. apply check_target_locations_inactive.
        rewrite Ha. exact Hactive. }
      destruct Hkept as (Km & Ki & Kl & Kc).
      unfold mute_state_kept. rewrite Hm, Hi, He. repeat split; try assumption.
      assert (Hitem : forall fixes0 s0,
                 mute_item (process_locations py fixes0 s0) = mute_item s0
                 \/ is_active s0 = true).
      { clear. intros fixes0. induction fixes0 as [|location rest IH]; intros s0;
          [left; reflexivity|].
        destruct (is_active s0) eqn:Ha; [right; reflexivity|]. left.
        change (process_locations py (location :: rest) s0)
          with (process_locations py rest (location_updated py location s0)).
        assert (Hlu : location_updated py location s0
                      = set_location_item (location_item (location_updated py location s0))
                          (set_current_location (Some location) s0)).
        { apply location_updated_skipped. intros lat lon s1 Ha1 _.
          apply check_target_locations_inactive. congruence. }
        destruct (IH (location_updated py location s0)) as [H|H].
        - rewrite H, Hlu. reflexivity.
        - rewrite Hlu in H. cbn in H. congruence. }
      destruct (Hitem fixes (toggle_status s)) as [H|H];
        [|rewrite Hactive in H; discriminate].
      rewrite H. exact Kl.
    + exact Hev.
Qed.

End Switch.

(** ** Geocoding requests of a cycle *)

Section Retry.

Variable py : PyLib.

Lemma requested_outside (coords : gmap string Coord) (lat lon : float)
    (targets : list TargetZone) :
  existsb (zone_contains py coords lat lon) targets = false ->
  requested py coords lat lon targets = unresolved coords targets.
Proof.
  induction targets as [|target rest IH]; cbn; [reflexivity|].
  intros Hnone. apply orb_false_iff in Hnone. destruct Hnone as [Hzone Hrest].
  rewrite Hzone, (IH Hrest). reflexivity.
Qed.

Lemma geocode_requests_map (addrs : list string) :
  geocode_requests (map GeocodeAddressString addrs) = addrs.
Proof. induction addrs as [|a rest IH]; [reflexivity|]. cbn. f_equal. exact IH. Qed.

(** X15: geocoding is retried on every cycle, without backoff. With
    monitoring on and a zone configured, a cycle asks the geocoder for each
    zone without a coordinate that stands before the first zone containing
    the position, in list order; when the position is in no zone it asks for
    every zone without a coordinate, and it does so again on the next cycle
    at the same position. A cycle asks nothing when every zone has a
    coordinate. *)
Theorem cycle_geocode_requests (lat lon : float) (s : App) :
  is_active s = true ->
  target_locations s <> [] ->
  let s1 := check_target_locations py lat lon s in
  let s2 := check_target_locations py lat lon s1 in
  geocode_requests (events s1)
  = geocode_requests (events s)
    ++ requested py (target_location_coords s) lat lon (target_locations s)
  /\ (inside_target_zone s1 = false ->
      geocode_requests (events s1)
      = geocode_requests (events s)
        ++ unresolved (target_location_coords s) (target_locations s)
      /\ geocode_requests (events s2)
         = geocode_requests (events s1)
           ++ unresolved (target_location_coords s) (target_locations s))
  /\ (unresolved (target_location_coords s) (target_locations s) = [] ->
      geocode_requests (events s1) = geocode_requests (events s)).
Proof.
  intros Hact Hne. cbn zeta.
  assert (Hreq : forall s0,
             is_active s0 = true -> target_locations s0 <> [] ->
             geocode_requests (events (check_target_locations py lat lon s0))
             = geocode_requests (events s0)
               ++ requested py (target_location_coords s0) lat lon (target_locations s0)).
  { intros s0 Ha0 Hn0. rewrite check_target_locations_active by assumption.
    rewrite inside_any_target_spec. cbn [fst snd]. unfold auto_mute.
    destruct (existsb _ _), (is_muted s0) eqn:Hm; cbn -[geocode_requests];
      rewrite ?Hm; cbn -[geocode_requests];
      rewrite ?geocode_requests_app, geocode_requests_map; cbn;
      rewrite ?app_nil_r; reflexivity. }
  destruct (check_target_locations_config py lat lon s) as (Ha1 & Ht1 & Hc1).
  destruct (check_target_locations_enforces py lat lon s Hact Hne) as (Hi & _ & _).
  split; [apply Hreq; assumption|]. split.
  - intros Hout. rewrite Hi in Hout.
    rewrite !Hreq by (rewrite ?Ha1, ?Ht1; assumption).
    rewrite Hc1, Ht1, (requested_outside _ _ _ _ Hout). split; reflexivity.
  - intros Hall. rewrite Hreq by assumption.
    assert (Hnone : forall targets,
               unresolved (target_location_coords s) targets = [] ->
               requested py (target_location_coords s) lat lon targets = []).
    { induction targets as [|target rest IH]; cbn; [reflexivity|].
      destruct (zone_contains py _ lat lon target); [reflexivity|].
      destruct (target_location_coords s !! address target); [exact IH|discriminate]. }
    rewrite (Hnone _ Hall). apply app_nil_r.
Qed.

End Retry.

(** [cycle_geocode_requests] on [waiting_for_geocoder]: the zone ["Gym"],
    requested at start-up and at the first fix, is requested again. *)
Lemma cycle_geocode_requests_witness :
  (is_active waiting_for_geocoder = true /\ target_locations waiting_for_geocoder <> [])
  /\ geocode_requests (events waiting_for_geocoder) = ["Gym"; "Gym"]
  /\ geocode_requests
       (events (check_target_locations Approx.lib (fst near_gym) (snd near_gym)
                  waiting_for_geocoder))
     = ["Gym"; "Gym"; "Gym"].
Proof.
  assert (H1 : is_active waiting_for_geocoder = true) by (vm_compute; reflexivity).
  assert (H2 : target_locations waiting_for_geocoder <> []) by (vm_compute; discriminate).
  split; [auto|]. split; [vm_compute; reflexivity|].
  destruct (cycle_geocode_requests Approx.lib (fst near_gym) (snd near_gym)
              waiting_for_geocoder H1 H2) as (Hreq & _).
  rewrite Hreq. vm_compute. reflexivity.
Defined.

(** ** Single instance check *)

Lemma filter_other_pids (current_pid : Z) (pids : list Z) :
  filter (fun pid => pid <> current_pid) pids = []
  <-> Forall (fun pid => pid = current_pid) pids.
Proof.
  induction pids as [|pid rest IH].
  - split; [constructor|reflexivity].
  - rewrite filter_cons. destruct (decide (pid <> current_pid)) as [Hne|Heq].
    + split; [discriminate|]. intros Hall. inversion Hall; subst. contradiction.
    + assert (pid = current_pid) by (destruct (Z.eq_dec pid current_pid); tauto).
      rewrite IH. split; [intros Hrest; constructor; assumption|].
      intros Hall. inversion Hall; assumption.
Qed.

(** X16: the single-instance check fails open and never counts the process
    itself. It lets the application start when [pgrep] cannot be run, when
    it returns a non-zero code, or when a line of its output is not a
    number; otherwise it lets the application start exactly when every
    process id listed is the current one, blank lines being skipped. *)
Theorem single_instance_check (current_pid : Z) :
  check_single_instance current_pid None = true
  /\ (forall returncode stdout,
         returncode <> 0 ->
         check_single_instance current_pid (Some (returncode, stdout)) = true)
  /\ (forall stdout,
         parse_pids (split_on "010"%char (PyStr.strip stdout)) = None ->
         check_single_instance current_pid (Some (0, stdout)) = true)
  /\ (forall stdout pids,
         parse_pids (split_on "010"%char (PyStr.strip stdout)) = Some pids ->
         (check_single_instance current_pid (Some (0, stdout)) = true
          <-> Forall (fun pid => pid = current_pid) pids)).
Proof.
  split; [reflexivity|]. split; [|split].
  - intros returncode stdout Hne. cbn. apply Z.eqb_neq in Hne. rewrite Hne. reflexivity.
  - intros stdout Hparse. cbn. rewrite Hparse. reflexivity.
  - intros stdout pids Hparse. cbn. rewrite Hparse.
    rewrite <- filter_other_pids.
    destruct (filter _ pids); split; congruence.
Qed.

(** The output of [pgrep] for a lone instance, for a second instance, and
    an output that is not a list of numbers. *)
Example single_instance_samples :
  let nl := newline in
  check_single_instance 4242 (Some (0, "4242" +:+ nl)) = true
  /\ check_single_instance 4242 (Some (0, "4100" +:+ nl +:+ "4242" +:+ nl)) = false
  /\ check_single_instance 4242 (Some (0, " 4242 " +:+ nl +:+ nl +:+ "4242")) = true
  /\ check_single_instance 4242 (Some (0, "pgrep: error" +:+ nl)) = true
  /\ check_single_instance 4242 (Some (1, EmptyString)) = true
  /\ split_on "010"%char ("a" +:+ nl +:+ nl +:+ "b") = ["a"; EmptyString; "b"]
  /\ split_on "010"%char EmptyString = [EmptyString].
Proof. repeat split; vm_compute; reflexivity. Qed.

(** ** The pre-filled texts of the edit dialogs *)

Lemma rev_app_rev_app (s a b : string) :
  String.rev_app (String.rev_app s a) b = String.rev_app a (s +:+ b).
Proof.
  revert a. induction s as [|c s IH]; intros a; cbn; [reflexivity|].
  rewrite IH. reflexivity.
Qed.

Lemma append_empty (s : string) : s +:+ EmptyString = s.
Proof.
  induction s as [|c s IH]; [reflexivity|].
  change (String c s +:+ EmptyString) with (String c (s +:+ EmptyString)).
  f_equal. exact IH.
Qed.

Lemma rev_rev (s : string) : String.rev (String.rev s) = s.
Proof. unfold String.rev. rewrite rev_app_rev_app. cbn. apply append_empty. Qed.

Lemma no_blank_rev_app (s a : string) :
  no_blank s = true -> no_blank a = true -> no_blank (String.rev_app s a) = true.
Proof.
  revert a. induction s as [|c s IH]; intros a Hs Ha; cbn in *; [exact Ha|].
  apply andb_true_iff in Hs. destruct Hs as [Hc Hs].
  apply IH; [exact Hs|]. cbn. rewrite Hc, Ha. reflexivity.
Qed.

Lemma lstrip_no_blank (s : string) : no_blank s = true -> PyStr.lstrip s = s.
Proof.
  destruct s as [|c s]; cbn; [reflexivity|].
  intros H. apply andb_true_iff in H. destruct H as [Hc _].
  apply negb_true_iff in Hc. rewrite Hc. reflexivity.
Qed.

Lemma strip_no_blank (s : string) : no_blank s = true -> PyStr.strip s = s.
Proof.
  intros H. unfold PyStr.strip, PyStr.rstrip.
  rewrite (lstrip_no_blank s H).
  rewrite lstrip_no_blank by (apply no_blank_rev_app; [exact H|reflexivity]).
  apply rev_rev.
Qed.

Lemma parse_digits_of_uint_acc (d : Decimal.uint) (acc : positive) :
  PyStr.parse_digits (Z.pos acc) true (NilEmpty.string_of_uint d)
  = Some (Z.pos (Pos.of_uint_acc d acc)).
Proof.
  revert acc. induction d as [|d IH|d IH|d IH|d IH|d IH|d IH|d IH|d IH|d IH|d IH];
    intros acc; [reflexivity|..];
    cbn [NilEmpty.string_of_uint PyStr.parse_digits Pos.of_uint_acc];
    match goal with
    | |- context [PyStr.digit_value ?c] =>
        let v := eval vm_compute in (PyStr.digit_value c) in
        change (PyStr.digit_value c) with v
    end;
    cbv iota; rewrite <- IH; f_equal; lia.
Qed.

Lemma parse_digits_of_uint (d : Decimal.uint) (after_digit : bool) :
  d <> Decimal.Nil \/ after_digit = true ->
  PyStr.parse_digits 0 after_digit (NilEmpty.string_of_uint d)
  = Some (Z.of_N (Pos.of_uint d)).
Proof.
  revert after_digit.
  induction d as [|d IH|d IH|d IH|d IH|d IH|d IH|d IH|d IH|d IH|d IH];
    intros after_digit Hok.
  - destruct Hok as [Hnil | ->]; [congruence|reflexivity].
  - cbn [NilEmpty.string_of_uint PyStr.parse_digits Pos.of_uint].
    change (PyStr.digit_value "0") with (Some 0). cbv iota.
    apply IH. right. reflexivity.
  - exact (parse_digits_of_uint_acc d 1).
  - exact (parse_digits_of_uint_acc d 2).
  - exact (parse_digits_of_uint_acc d 3).
  - exact (parse_digits_of_uint_acc d 4).
  - exact (parse_digits_of_uint_acc d 5).
  - exact (parse_digits_of_uint_acc d 6).
  - exact (parse_digits_of_uint_acc d 7).
  - exact (parse_digits_of_uint_acc d 8).
  - exact (parse_digits_of_uint_acc d 9).
Qed.
